(** * dspy_bridge: wire framing, program registry, recreation path, dispatcher

    A shallow embedding of [priv/python/dspy_bridge.py].

    Values are taken at the types the annotations of the source give
    them: a program id is a string, a signature definition holds two
    lists of named fields (either of which may be missing), the inputs
    are a dictionary.  What arrives from the wire untyped (the request of
    the protocol loop, the command and the arguments of the dispatcher)
    is a JSON value, and the code that takes it apart raises where
    Python would.

    A Python [str] is the string of its UTF-8 bytes.

    Python dictionaries that the code iterates over are association lists
    in insertion order; the program registry, which is only looked up,
    counted and updated by key, is a [gmap].  A function that can raise
    returns an [outcome]; [try]/[except] is [try_except].  Objects that
    are mutated in place (the registry, the bridge) are passed in and
    returned.

    The reasoning capability (the [dspy] package), the clock, [str] on
    values other than strings and the text of tracebacks are outside the
    file: they enter as a record [Env] whose fields the functions consult
    where the source calls out.  The JSON codec of the standard library
    enters as a record [Codec]. *)

From Stdlib Require Import ZArith List String Ascii Strings.Byte Lia Bool.
From stdpp Require Import base option gmap strings list fin_maps pretty.

Local Open Scope string_scope.
Local Open Scope list_scope.
Local Open Scope Z_scope.

#[local] Set Warnings "-register-all".

(** ** Bytes and [struct] *)

Module Struct.

Definition byte_to_Z (b : byte) : Z := Z.of_N (Byte.to_N b).

Definition byte_of_Z (z : Z) : byte :=
  match Byte.of_N (Z.to_N z) with
  | Some b => b
  | None => x00
  end.

(** [struct.pack('>I', n)]: [struct.error] (here [None]) unless
    [0 <= n < 2^32]; otherwise the four bytes, most significant first. *)
Definition pack_I (n : Z) : option (list byte) :=
  if (0 <=? n) && (n <? 2 ^ 32) then
    Some [ byte_of_Z (Z.land (Z.shiftr n 24) 255);
           byte_of_Z (Z.land (Z.shiftr n 16) 255);
           byte_of_Z (Z.land (Z.shiftr n 8) 255);
           byte_of_Z (Z.land n 255) ]
  else None.

(** [struct.unpack('>I', data)[0]]: defined on exactly four bytes. *)
Definition unpack_I (data : list byte) : option Z :=
  match data with
  | [b0; b1; b2; b3] =>
      Some (Z.lor (Z.shiftl (byte_to_Z b0) 24)
             (Z.lor (Z.shiftl (byte_to_Z b1) 16)
                (Z.lor (Z.shiftl (byte_to_Z b2) 8) (byte_to_Z b3))))
  | _ => None
  end.

End Struct.

(** ** Byte streams

    [sys.stdin.buffer] is a buffered reader in blocking mode: [read(n)]
    returns [n] bytes unless the stream ends first, in which case it returns
    the bytes that were left.  A stream is the list of the bytes it delivers
    before it ends. *)

Module Stream.

Definition stream := list byte.

Definition read (n : Z) (s : stream) : list byte * stream :=
  (take (Z.to_nat n) s, drop (Z.to_nat n) s).

End Stream.

(** ** Python values, dictionaries, exceptions *)

(** Readings of [time.time()]; the code only stores and echoes them. *)
Definition timestamp : Type := Z.

(** Values that travel in requests and responses: what [json.loads]
    produces and [json.dumps] accepts.  Python's [None] is [JNull]. *)
Inductive json : Type :=
| JNull
| JBool (b : bool)
| JInt (n : Z)
| JFloat (t : timestamp)
| JStr (s : string)
| JArr (items : list json)
| JObj (members : list (string * json)).

(** A [dict] with string keys, in insertion order: assigning to a key that
    is present replaces its value in place, assigning to a new key appends. *)
Module Dict.

Definition t (V : Type) : Type := list (string * V).

Fixpoint get {V} (k : string) (d : t V) : option V :=
  match d with
  | [] => None
  | (k', v) :: d' => if String.eqb k k' then Some v else get k d'
  end.

Fixpoint set {V} (k : string) (v : V) (d : t V) : t V :=
  match d with
  | [] => [(k, v)]
  | (k', v') :: d' =>
      if String.eqb k k' then (k, v) :: d' else (k', v') :: set k v d'
  end.

Definition keys {V} (d : t V) : list string := map fst d.
Definition values {V} (d : t V) : list V := map snd d.

(** [k in d] *)
Definition mem {V} (k : string) (d : t V) : bool :=
  match get k d with Some _ => true | None => false end.

(** [not d]: a dictionary is falsy exactly when it is empty. *)
Definition is_empty {V} (d : t V) : bool :=
  match d with [] => true | _ => false end.

End Dict.

Definition nl : string := String (ascii_of_nat 10) EmptyString.

(** [sep.join(parts)] *)
Fixpoint join (sep : string) (parts : list string) : string :=
  match parts with
  | [] => ""
  | [p] => p
  | p :: rest => p +:+ sep +:+ join sep rest
  end.

(** [c in s] for a one-character [c] *)
Fixpoint contains_char (c : ascii) (s : string) : bool :=
  match s with
  | EmptyString => false
  | String c' s' => if Ascii.eqb c c' then true else contains_char c s'
  end.

(** [s.startswith(c)] for a one-character [c] *)
Definition startswith_char (c : ascii) (s : string) : bool :=
  match s with
  | EmptyString => false
  | String c' _ => Ascii.eqb c c'
  end.

(** Exceptions, by what the handlers read off them: [str(e)]. *)
Inductive exn : Type :=
| RuntimeError (msg : string)
| TypeError (msg : string)
| AttributeError (msg : string)
| CapabilityError (msg : string).

Definition str_exn (e : exn) : string :=
  match e with
  | RuntimeError msg => msg
  | TypeError msg => msg
  | AttributeError msg => msg
  | CapabilityError msg => msg
  end.

(** A computation either raises or returns. *)
Definition outcome (A : Type) : Type := exn + A.

Definition ret {A} (a : A) : outcome A := inr a.
Definition raise {A} (e : exn) : outcome A := inl e.
Definition bind {A B} (c : outcome A) (k : A -> outcome B) : outcome B :=
  match c with
  | inl e => inl e
  | inr a => k a
  end.

(** [try: c  except Exception as e: h e] *)
Definition try_except {A} (c : outcome A) (h : exn -> A) : A :=
  match c with
  | inl e => h e
  | inr a => a
  end.

Notation "'let!' x ':=' c 'in' k" := (bind c (fun x => k))
  (at level 10, x pattern, c at level 100, k at level 200).

(** ** The field specification and the capability's objects *)

(** One entry of [signature_def['inputs']] or [signature_def['outputs']];
    the code reads its ['name'] only. *)
Record Field : Type := { field_name : string }.

(** [signature_def]: either group may be missing ([.get(..., [])]). *)
Record SignatureDef : Type := {
  sd_inputs : option (list Field);
  sd_outputs : option (list Field)
}.

Definition field_json (f : Field) : json := JObj [("name", JStr (field_name f))].

Definition signature_def_json (sd : SignatureDef) : json :=
  JObj (match sd_inputs sd with
        | Some l => [("inputs", JArr (map field_json l))]
        | None => []
        end ++
        match sd_outputs sd with
        | Some l => [("outputs", JArr (map field_json l))]
        | None => []
        end).

(** What [dspy.Signature(...)] and [dspy.Predict(...)] hand back: opaque
    objects, told apart by what they were built from. *)
Record Signature : Type := { signature_string : string }.
Record Predict : Type := { predict_signature : Signature }.

(** The language-model handle kept in the global [current_lm]. *)
Record LM : Type := { lm_model : string }.

(** The result object of a program call, as the extraction code probes it:
    attributes by name ([hasattr]/[getattr]), the internal [_store] and
    [_completions] when the object has them, and its [__dict__]. *)
Record Prediction : Type := {
  attributes : Dict.t json;
  store : option (Dict.t json);
  completions : option (Dict.t (list json));
  dict : option (Dict.t json)
}.

Definition hasattr (result : Prediction) (name : string) : bool :=
  Dict.mem name (attributes result).

Definition getattr (result : Prediction) (name : string) : option json :=
  Dict.get name (attributes result).

(** What lies outside the file, as one call sees it. *)
Record Env : Type := {
  (** the module constant set by [import dspy] *)
  DSPY_AVAILABLE : bool;
  (** [dspy.Signature(signature_string)] *)
  dspy_Signature : string -> outcome Signature;
  (** [dspy.Predict(signature_class)] *)
  dspy_Predict : Signature -> outcome Predict;
  (** calling [program] with the inputs as keyword arguments *)
  call : Predict -> Dict.t json -> outcome Prediction;
  (** [time.time()] *)
  time_time : timestamp;
  (** the builtin [str] on a value that is not a string *)
  str_other : json -> string;
  (** [traceback.format_exc()] while the given exception is handled *)
  format_exc : exn -> string
}.

(** [str(v)]: a string is its own [str]. *)
Definition str (E : Env) (v : json) : string :=
  match v with
  | JStr s => s
  | _ => str_other E v
  end.

(** ** DSPySignatureBuilder *)

Definition build_signature (E : Env) (signature_def : SignatureDef)
  : outcome (Signature * Dict.t string) :=
  if negb (DSPY_AVAILABLE E) then raise (RuntimeError "DSPy is not available")
  else
    let inputs := default [] (sd_inputs signature_def) in
    let outputs := default [] (sd_outputs signature_def) in
    let input_names := map field_name inputs in
    let output_names := map field_name outputs in
    let signature_string :=
      join ", " input_names +:+ " -> " +:+ join ", " output_names in
    let field_mapping :=
      fold_left (fun fm field => Dict.set (field_name field) (field_name field) fm)
        (inputs ++ outputs) [] in
    let! signature_class := dspy_Signature E signature_string in
    ret (signature_class, field_mapping).

(** ** DSPyProgramManager *)

(** The dictionary stored under a program id. *)
Record ProgramInfo : Type := {
  pi_program : Predict;
  pi_signature_class : Signature;
  pi_field_mapping : Dict.t string;
  pi_signature_def : SignatureDef;
  pi_instructions : option string;
  pi_program_type : string;
  pi_created_at : timestamp;
  pi_execution_count : Z
}.

Record DSPyProgramManager : Type := {
  programs : gmap string ProgramInfo
}.

Definition new_manager : DSPyProgramManager := {| programs := ∅ |}.

Definition error_result (msg : string) : json :=
  JObj [("status", JStr "error"); ("error", JStr msg)].

Definition instructions_json (i : option string) : json :=
  match i with Some s => JStr s | None => JNull end.

Definition create_program (E : Env) (self : DSPyProgramManager)
    (program_id : string) (signature_def : SignatureDef)
    (instructions : option string) (program_type : string)
  : json * DSPyProgramManager :=
  try_except
    (if negb (DSPY_AVAILABLE E) then ret (error_result "DSPy is not available", self)
     else
       let! (signature_class, field_mapping) := build_signature E signature_def in
       if String.eqb program_type "predict" then
         let! program := dspy_Predict E signature_class in
         let self' :=
           {| programs :=
               <[program_id :=
                   {| pi_program := program;
                      pi_signature_class := signature_class;
                      pi_field_mapping := field_mapping;
                      pi_signature_def := signature_def;
                      pi_instructions := instructions;
                      pi_program_type := program_type;
                      pi_created_at := time_time E;
                      pi_execution_count := 0 |}]> (programs self) |} in
         ret (JObj [("status", JStr "ok");
                    ("program_id", JStr program_id);
                    ("signature_def", signature_def_json signature_def);
                    ("program_type", JStr program_type)],
              self')
       else
         ret (error_result ("Unsupported program type: " +:+ program_type), self))
    (fun e => (error_result ("Failed to create program: " +:+ str_exn e), self)).

(** The loop of [execute_program] over the declared output fields: a field
    goes into [outputs] only when the result has the attribute. *)
Definition extract_declared (result : Prediction) (declared : list Field)
  : Dict.t json :=
  fold_left
    (fun outputs output_field =>
       let field_name := field_name output_field in
       match getattr result field_name with
       | Some v => Dict.set field_name v outputs
       | None => outputs
       end)
    declared [].

(** [program_info["execution_count"] += 1] *)
Definition count_execution (program_info : ProgramInfo) : ProgramInfo :=
  {| pi_program := pi_program program_info;
     pi_signature_class := pi_signature_class program_info;
     pi_field_mapping := pi_field_mapping program_info;
     pi_signature_def := pi_signature_def program_info;
     pi_instructions := pi_instructions program_info;
     pi_program_type := pi_program_type program_info;
     pi_created_at := pi_created_at program_info;
     pi_execution_count := pi_execution_count program_info + 1 |}.

Definition execute_program (E : Env) (self : DSPyProgramManager)
    (program_id : string) (inputs : Dict.t json)
  : json * DSPyProgramManager :=
  match programs self !! program_id with
  | None => (error_result ("Program '" +:+ program_id +:+ "' not found"), self)
  | Some program_info =>
      let program := pi_program program_info in
      try_except
        (let! result := call E program inputs in
         (* the stored dictionary is updated in place *)
         let program_info := count_execution program_info in
         let self :=
           {| programs := <[program_id := program_info]> (programs self) |} in
         let signature_def := pi_signature_def program_info in
         let outputs :=
           extract_declared result (default [] (sd_outputs signature_def)) in
         ret (JObj [("status", JStr "ok");
                    ("program_id", JStr program_id);
                    ("inputs", JObj inputs);
                    ("outputs", JObj outputs);
                    ("execution_count", JInt (pi_execution_count program_info))],
              self))
        (fun e => (error_result ("Program execution failed: " +:+ str_exn e), self))
  end.

Definition get_program (self : DSPyProgramManager) (program_id : string) : json :=
  match programs self !! program_id with
  | None => error_result ("Program '" +:+ program_id +:+ "' not found")
  | Some program_info =>
      JObj [("status", JStr "ok");
            ("program_id", JStr program_id);
            ("signature_def", signature_def_json (pi_signature_def program_info));
            ("instructions", instructions_json (pi_instructions program_info));
            ("program_type", JStr (pi_program_type program_info));
            ("created_at", JFloat (pi_created_at program_info));
            ("execution_count", JInt (pi_execution_count program_info))]
  end.

(** The entries come in the order in which the map enumerates its keys;
    the source lists them in the order of insertion, which the registry
    as a map from ids to records does not keep.  Only the entries and
    their number are meant, not their order. *)
Definition list_programs (self : DSPyProgramManager) : json :=
  let program_list :=
    map (fun '(program_id, program_info) =>
           JObj [("program_id", JStr program_id);
                 ("program_type", JStr (pi_program_type program_info));
                 ("created_at", JFloat (pi_created_at program_info));
                 ("execution_count", JInt (pi_execution_count program_info))])
      (map_to_list (programs self)) in
  JObj [("status", JStr "ok");
        ("programs", JArr program_list);
        ("count", JInt (Z.of_nat (length program_list)))].

Definition clear_session (self : DSPyProgramManager) : json * DSPyProgramManager :=
  let count := Z.of_nat (size (programs self)) in
  (JObj [("status", JStr "ok");
         ("message", JStr ("Cleared " +:+ pretty count +:+ " programs"));
         ("count", JInt count)],
   {| programs := ∅ |}).

Definition delete_program (self : DSPyProgramManager) (program_id : string)
  : json * DSPyProgramManager :=
  match programs self !! program_id with
  | None => (error_result ("Program '" +:+ program_id +:+ "' not found"), self)
  | Some _ =>
      (JObj [("status", JStr "ok");
             ("program_id", JStr program_id);
             ("message", JStr "Program deleted successfully")],
       {| programs := delete program_id (programs self) |})
  end.

(** The fields of a result dictionary. *)
Definition field (k : string) (result : json) : option json :=
  match result with
  | JObj members => Dict.get k members
  | _ => None
  end.

Definition status (result : json) : option json := field "status" result.

(** ** DSPyBridge: the recreation path *)

(** [program_data], the snapshot a caller supplies for stateless
    execution; every key may be missing. *)
Record ProgramData : Type := {
  pd_signature_def : option SignatureDef;
  pd_program_id : option json;
  pd_created_at : option json;
  pd_execution_count : option json;
  pd_last_executed : option json
}.

(** The dictionary [_recreate_program_from_data] returns. *)
Record RecreatedInfo : Type := {
  ri_program : Predict;
  ri_signature_class : Signature;
  ri_field_mapping : Dict.t string;
  ri_signature_def : SignatureDef;
  ri_program_id : json;
  ri_created_at : json;
  ri_execution_count : json;
  ri_last_executed : json
}.

Definition empty_signature_def : SignatureDef :=
  {| sd_inputs := None; sd_outputs := None |}.

Definition _recreate_program_from_data (E : Env) (current_lm : option LM)
    (program_data : ProgramData) : outcome RecreatedInfo :=
  if negb (DSPY_AVAILABLE E) then
    raise (RuntimeError "DSPy not available - cannot recreate programs")
  else
    match
      (let signature_def := default empty_signature_def (pd_signature_def program_data) in
       let! (signature_class, field_mapping) := build_signature E signature_def in
       match current_lm with
       | None => raise (RuntimeError "No LM is loaded.")
       | Some _ =>
           let! program := dspy_Predict E signature_class in
           ret {| ri_program := program;
                  ri_signature_class := signature_class;
                  ri_field_mapping := field_mapping;
                  ri_signature_def := signature_def;
                  ri_program_id := default JNull (pd_program_id program_data);
                  ri_created_at := default JNull (pd_created_at program_data);
                  ri_execution_count := default (JInt 0) (pd_execution_count program_data);
                  ri_last_executed := default JNull (pd_last_executed program_data) |}
       end)
    with
    | inr program_info => ret program_info
    | inl e =>
        let error_details :=
          "Failed to recreate program: " +:+ str_exn e +:+ nl +:+
          "Traceback: " +:+ format_exc E e in
        raise (RuntimeError error_details)
    end.

(** *** Output extraction of [_execute_with_program_info] *)

Definition is_declared_output (expected_outputs : list Field)
    (original_name : string) : bool :=
  existsb (fun field => String.eqb (field_name field) original_name)
    expected_outputs.

Definition not_found_text (name : string) : string :=
  "Field '" +:+ name +:+ "' not found in prediction.".

(** First strategy: through the field mapping, declared outputs only. *)
Definition extract_by_mapping (E : Env) (result : Prediction)
    (field_mapping : Dict.t string) (expected_outputs : list Field)
    (outputs : Dict.t string) : Dict.t string :=
  if Dict.is_empty field_mapping then outputs
  else
    fold_left
      (fun outputs '(original_name, sanitized_name) =>
         if is_declared_output expected_outputs original_name then
           match getattr result sanitized_name with
           | Some v => Dict.set original_name (str E v) outputs
           | None => Dict.set original_name (not_found_text sanitized_name) outputs
           end
         else outputs)
      field_mapping outputs.

(** Second strategy, when nothing was extracted: the declared names. *)
Definition extract_direct (E : Env) (result : Prediction)
    (expected_outputs : list Field) (outputs : Dict.t string) : Dict.t string :=
  if Dict.is_empty outputs then
    fold_left
      (fun outputs output_field =>
         let field_name := field_name output_field in
         match getattr result field_name with
         | Some v => Dict.set field_name (str E v) outputs
         | None => Dict.set field_name (not_found_text field_name) outputs
         end)
      expected_outputs outputs
  else outputs.

(** ["[" in v and "]" in v] *)
Definition bracketed (v : string) : bool :=
  contains_char "["%char v && contains_char "]"%char v.

(** [not outputs or all("[" in str(v) and "]" in str(v) for v in outputs.values())] *)
Definition no_real_outputs (outputs : Dict.t string) : bool :=
  Dict.is_empty outputs || forallb bracketed (Dict.values outputs).

(** Third strategy, first half: the internal [_store]. *)
Definition extract_from_store (E : Env) (result : Prediction)
    (expected_outputs : list Field) (outputs : Dict.t string) : Dict.t string :=
  match store result with
  | Some _store =>
      if Dict.is_empty _store then outputs
      else
        fold_left
          (fun outputs expected_field =>
             match Dict.get expected_field _store with
             | Some v => Dict.set expected_field (str E v) outputs
             | None => outputs
             end)
          (map field_name expected_outputs) outputs
  | None => outputs
  end.

(** Third strategy, second half: the first completion goes to the first
    declared output field. *)
Definition extract_from_completions (E : Env) (result : Prediction)
    (expected_outputs : list Field) (outputs : Dict.t string) : Dict.t string :=
  match completions result with
  | Some _completions =>
      if Dict.is_empty _completions then outputs
      else
        let completion_values := Dict.values _completions in
        match completion_values with
        | (first_completion :: _) :: _ =>
            match expected_outputs with
            | first_output :: _ =>
                Dict.set (field_name first_output) (str E first_completion) outputs
            | [] => outputs
            end
        | _ => outputs
        end
  | None => outputs
  end.

(** Fourth strategy, when still nothing: the public entries of [__dict__]. *)
Definition extract_from_dict (E : Env) (result : Prediction)
    (outputs : Dict.t string) : Dict.t string :=
  if Dict.is_empty outputs then
    match dict result with
    | Some result_dict =>
        fold_left
          (fun outputs '(k, v) =>
             if negb (startswith_char "_"%char k) && negb (String.eqb k "completions")
             then Dict.set k (str E v) outputs
             else outputs)
          result_dict outputs
    | None => outputs
    end
  else outputs.

(** The outputs as they stand before the diagnostic step. *)
Definition extract_outputs (E : Env) (result : Prediction)
    (field_mapping : Dict.t string) (expected_outputs : list Field)
  : Dict.t string :=
  let outputs := [] in
  let outputs := extract_by_mapping E result field_mapping expected_outputs outputs in
  let outputs := extract_direct E result expected_outputs outputs in
  if no_real_outputs outputs then
    let outputs := extract_from_store E result expected_outputs outputs in
    let outputs := extract_from_completions E result expected_outputs outputs in
    extract_from_dict E result outputs
  else outputs.

Definition diagnostic_text (E : Env) (result : Prediction) : string :=
  "[DEBUG: Empty completions, LM may not be responding. Store: " +:+
  match store result with
  | Some _store => str E (JObj _store)
  | None => "N/A"
  end +:+ "]".

(** The last step: one diagnostic per expected field when nothing real
    was extracted. *)
Definition provide_diagnostics (E : Env) (result : Prediction)
    (expected_outputs : list Field) (outputs : Dict.t string) : Dict.t string :=
  if no_real_outputs outputs then
    fold_left
      (fun outputs expected_field =>
         Dict.set expected_field (diagnostic_text E result) outputs)
      (map field_name expected_outputs) outputs
  else outputs.

Definition strings_json (d : Dict.t string) : json :=
  JObj (map (fun '(k, v) => (k, JStr v)) d).

(** The inputs, renamed through the field mapping. *)
Definition convert_inputs (field_mapping : Dict.t string) (inputs : Dict.t json)
  : Dict.t json :=
  fold_left
    (fun dspy_inputs '(key, value) =>
       let dspy_field := default key (Dict.get key field_mapping) in
       Dict.set dspy_field value dspy_inputs)
    inputs [].

Definition _execute_with_program_info (E : Env) (program_info : RecreatedInfo)
    (inputs : Dict.t json) : json :=
  try_except
    (let program := ri_program program_info in
     let field_mapping := ri_field_mapping program_info in
     let dspy_inputs := convert_inputs field_mapping inputs in
     let! result := call E program dspy_inputs in
     let signature_def := ri_signature_def program_info in
     let expected_outputs := default [] (sd_outputs signature_def) in
     let field_mapping := ri_field_mapping program_info in
     let outputs := extract_outputs E result field_mapping expected_outputs in
     let outputs := provide_diagnostics E result expected_outputs outputs in
     ret (JObj [("status", JStr "ok");
                ("outputs", strings_json outputs);
                ("program_id", ri_program_id program_info);
                ("execution_time", JFloat (time_time E))]))
    (fun e =>
       let error_details :=
         "Program execution failed: " +:+ str_exn e +:+ nl +:+
         "Traceback: " +:+ format_exc E e in
       error_result error_details).

(** *** handle_execute_program *)

Record DSPyBridge : Type := {
  start_time : timestamp;
  request_count : Z;
  program_manager : DSPyProgramManager
}.

(** The arguments of [execute_program] as the handler reads them; each
    key may be missing. *)
Record ExecuteArgs : Type := {
  ea_program_id : option string;
  ea_inputs : option (Dict.t json);
  ea_program_data : option ProgramData
}.

(** [not program_id] *)
Definition missing_id (program_id : option string) : bool :=
  match program_id with
  | None => true
  | Some s => String.eqb s ""
  end.

Definition handle_execute_program (E : Env) (current_lm : option LM)
    (self : DSPyBridge) (args : ExecuteArgs) : json * DSPyBridge :=
  try_except
    (let program_id := ea_program_id args in
     let inputs := default [] (ea_inputs args) in
     if missing_id program_id then ret (error_result "Program ID is required", self)
     else
       match ea_program_data args with
       | Some program_data =>
           let! program_info := _recreate_program_from_data E current_lm program_data in
           ret (_execute_with_program_info E program_info inputs, self)
       | None =>
           let '(result, manager) :=
             execute_program E (program_manager self) (default "" program_id) inputs in
           ret (result,
                {| start_time := start_time self;
                   request_count := request_count self;
                   program_manager := manager |})
       end)
    (fun e =>
       let error_details :=
         "Execute program failed: " +:+ str_exn e +:+ nl +:+
         "Traceback: " +:+ format_exc E e in
       (error_result error_details, self)).

(** ** DSPyBridge.process_command *)

Module Dispatch.
Section Dispatch.

(** Whatever the handlers read and change: the bridge, the registry,
    the globals, the world behind the capability. *)
Context {State : Type}.

(** A bound handler: given [args] it returns a result or raises, and
    leaves a state behind either way. *)
Definition handler : Type := json -> State -> outcome json * State.

(** The eight callables the table of [process_command] holds. *)
Record Handlers : Type := {
  handle_ping : handler;
  handle_configure_lm : handler;
  handle_create_program : handler;
  handle_execute_program : handler;
  get_program : handler;
  list_programs : handler;
  delete_program : handler;
  clear_session : handler
}.

Definition handlers (H : Handlers) : Dict.t handler :=
  [ ("ping", handle_ping H);
    ("configure_lm", handle_configure_lm H);
    ("create_program", handle_create_program H);
    ("execute_program", handle_execute_program H);
    ("get_program", get_program H);
    ("list_programs", list_programs H);
    ("delete_program", delete_program H);
    ("clear_session", clear_session H) ].

(** [handlers.get(command)]: a list or a dictionary is not hashable;
    any other key that is not a string is simply not in the table. *)
Definition handlers_get (H : Handlers) (command : json) : outcome (option handler) :=
  match command with
  | JStr name => ret (Dict.get name (handlers H))
  | JArr _ => raise (TypeError "unhashable type: 'list'")
  | JObj _ => raise (TypeError "unhashable type: 'dict'")
  | _ => ret None
  end.

Definition process_command (E : Env) (H : Handlers) (command args : json)
    (st : State) : outcome json * State :=
  match handlers_get H command with
  | inl e => (raise e, st)
  | inr (Some handler) =>
      match handler args st with
      | (inr result, st') => (ret result, st')
      | (inl e, st') =>
          (ret (error_result
                  ("Command '" +:+ str E command +:+ "' failed: " +:+ str_exn e)),
           st')
      end
  | inr None =>
      (ret (JObj [("status", JStr "error");
                  ("error", JStr ("Unknown command: " +:+ str E command));
                  ("supported_commands",
                   JArr (map JStr (Dict.keys (handlers H))))]),
       st)
  end.

End Dispatch.
Arguments Handlers : clear implicits.
Arguments handler : clear implicits.
End Dispatch.

(** ** ProtocolHandler *)

(** [json.dumps(message, separators=(',', ':')).encode('utf-8')] and
    [json.loads(data.decode('utf-8'))]; the latter is [None] where either
    step raises. *)
Record Codec : Type := {
  json_dumps : json -> list byte;
  json_loads : list byte -> option json
}.

Module Protocol.
Section Protocol.

Context {State : Type}.
Variable C : Codec.

(** Lines 637-647 of [read_message]: the header, the length, the payload.
    [None] where the source returns [None]. *)
Definition read_frame (stdin : Stream.stream) : option (list byte) * Stream.stream :=
  let '(length_data, stdin) := Stream.read 4 stdin in
  if negb (Nat.eqb (length length_data) 4) then (None, stdin)
  else
    match Struct.unpack_I length_data with
    | None => (None, stdin)
    | Some length =>
        let '(json_data, stdin) := Stream.read length stdin in
        if negb (Z.eqb (Z.of_nat (List.length json_data)) length) then (None, stdin)
        else (Some json_data, stdin)
    end.

(** [read_message]: Python's [None] is [JNull], whether it stands for
    the end of the stream, for a payload that does not parse, or for
    the payload [null]. *)
Definition read_message (stdin : Stream.stream) : json * Stream.stream :=
  match read_frame stdin with
  | (None, stdin) => (JNull, stdin)
  | (Some json_data, stdin) =>
      match json_loads C json_data with
      | Some message => (message, stdin)
      | None => (JNull, stdin)
      end
  end.

(** Lines 662-666 of [write_message]: [None] where [struct.pack]
    raises, before anything is written. *)
Definition write_frame (json_data : list byte) (stdout : list byte)
  : option (list byte) :=
  match Struct.pack_I (Z.of_nat (length json_data)) with
  | Some length => Some (stdout ++ length ++ json_data)
  | None => None
  end.

Definition write_message (message : json) (stdout : list byte)
  : bool * list byte :=
  let json_data := json_dumps C message in
  match write_frame json_data stdout with
  | Some stdout => (true, stdout)
  | None => (false, stdout)
  end.

(** [request.get(key, fallback)] on what [read_message] returned. *)
Definition request_get (request : json) (key : string) (fallback : json)
  : outcome json :=
  match request with
  | JObj members => ret (default fallback (Dict.get key members))
  | _ => raise (AttributeError "object has no attribute 'get'")
  end.

(** How [run] ends. *)
Inductive exit : Type :=
| EndOfStream          (* [read_message] returned [None] *)
| WriteFailed          (* [write_message] returned [False] *)
| Raised (e : exn).    (* an exception left [run] *)

Record Run : Type := {
  run_exit : exit;
  run_stdin : Stream.stream;
  run_stdout : list byte;
  run_state : State
}.

Variable E : Env.
Variable H : Dispatch.Handlers State.
(** [time.time()] when the response is built *)
Variable clock : State -> timestamp.

(** One turn of the loop: [inl] when the loop is left, [inr] when it
    goes round again. *)
Definition step (stdin : Stream.stream) (stdout : list byte) (st : State)
  : Run + (Stream.stream * list byte * State) :=
  let '(request, stdin) := read_message stdin in
  match request with
  | JNull =>
      inl {| run_exit := EndOfStream; run_stdin := stdin;
             run_stdout := stdout; run_state := st |}
  | _ =>
      match
        (let! request_id := request_get request "id" JNull in
         let! command := request_get request "command" JNull in
         let! args := request_get request "args" (JObj []) in
         ret (request_id, command, args))
      with
      | inl e =>
          inl {| run_exit := Raised e; run_stdin := stdin;
                 run_stdout := stdout; run_state := st |}
      | inr (request_id, command, args) =>
          let '(response, st) :=
            match Dispatch.process_command E H command args st with
            | (inr result, st) =>
                (JObj [("id", request_id);
                       ("success", JBool true);
                       ("result", result);
                       ("timestamp", JFloat (clock st))],
                 st)
            | (inl e, st) =>
                (JObj [("id", request_id);
                       ("success", JBool false);
                       ("error", JStr (str_exn e));
                       ("timestamp", JFloat (clock st))],
                 st)
            end in
          match write_message response stdout with
          | (true, stdout) => inr (stdin, stdout, st)
          | (false, stdout) =>
              inl {| run_exit := WriteFailed; run_stdin := stdin;
                     run_stdout := stdout; run_state := st |}
          end
      end
  end.

(** [while True]: [None] when the turns allowed run out first. *)
Fixpoint run_turns (turns : nat) (stdin : Stream.stream) (stdout : list byte)
    (st : State) : option Run :=
  match turns with
  | O => None
  | S turns =>
      match step stdin stdout st with
      | inl r => Some r
      | inr (stdin, stdout, st) => run_turns turns stdin stdout st
      end
  end.

(** Every turn that goes round has read at least a header, so the
    length of the stream bounds the number of turns. *)
Definition run (stdin : Stream.stream) (stdout : list byte) (st : State)
  : option Run :=
  run_turns (S (length stdin)) stdin stdout st.

End Protocol.
End Protocol.

(** A response envelope whose frame [write_message] can write: it has
    an id, a timestamp, and either [success] true and a result or
    [success] false and an error. *)
Definition envelope_written (C : Codec) (m : json) : Prop :=
  fst (Protocol.write_message C m []) = true /\
  is_Some (field "id" m) /\
  is_Some (field "timestamp" m) /\
  (field "success" m = Some (JBool true) /\ is_Some (field "result" m) \/
   field "success" m = Some (JBool false) /\ is_Some (field "error" m)).

(** ** The registry as a transition system

    One step is one call of a method of [DSPyProgramManager] that can
    change [programs], with whatever arguments and in whatever world. *)
Inductive registry_step : DSPyProgramManager -> DSPyProgramManager -> Prop :=
| step_create E self program_id signature_def instructions program_type :
    registry_step self
      (snd (create_program E self program_id signature_def instructions program_type))
| step_execute E self program_id inputs :
    registry_step self (snd (execute_program E self program_id inputs))
| step_delete self program_id :
    registry_step self (snd (delete_program self program_id))
| step_clear self :
    registry_step self (snd (clear_session self)).

(** The registries a manager can hold: those some sequence of calls
    leads to from the empty one of [__init__]. *)
Definition reachable (self : DSPyProgramManager) : Prop :=
  rtc registry_step new_manager self.

(** ** Slicing text

    A Python [str] is held as the string of its UTF-8 bytes, so a
    character is one byte that is not a continuation byte, followed by
    its continuation bytes (those from 128 to 191). *)
Definition is_continuation (c : ascii) : bool :=
  (128 <=? nat_of_ascii c)%nat && (nat_of_ascii c <? 192)%nat.

(** [s[:n]]: the first [n] characters, or all of [s] where it has
    fewer. *)
Fixpoint take_chars (n : nat) (s : string) : string :=
  match s with
  | EmptyString => EmptyString
  | String c s' =>
      if is_continuation c then String c (take_chars n s')
      else
        match n with
        | O => EmptyString
        | S n' => String c (take_chars n' s')
        end
  end.

(** [len(s)]: the number of characters. *)
Fixpoint count_chars (s : string) : nat :=
  match s with
  | EmptyString => O
  | String c s' =>
      if is_continuation c then count_chars s' else S (count_chars s')
  end.

(** ** DSPyBridge: the other handlers *)

(** What [handle_ping] reports about the process besides [Env]: the
    module constant [GEMINI_CONFIGURED], [sys.version], and the reading
    of its second call of [time.time()]. *)
Record Host : Type := {
  GEMINI_CONFIGURED : bool;
  sys_version : string;
  time_again : timestamp
}.

Definition handle_ping (E : Env) (P : Host) (self : DSPyBridge)
    (args : Dict.t json) : json * DSPyBridge :=
  let self :=
    {| start_time := start_time self;
       request_count := request_count self + 1;
       program_manager := program_manager self |} in
  (JObj [("status", JStr "ok");
         ("bridge_type", JStr "dspy");
         ("dspy_available", JBool (DSPY_AVAILABLE E));
         ("gemini_available", JBool (GEMINI_CONFIGURED P));
         ("uptime", JFloat (time_time E - start_time self));
         ("mode", JStr "pool-worker");
         ("timestamp", JFloat (time_again P));
         ("python_version", JStr (sys_version P));
         ("worker_id", default (JStr "unknown") (Dict.get "worker_id" args))],
   self).

(** The module globals [current_lm], [lm_type], [lm_config]. *)
Record Globals : Type := {
  current_lm : option LM;
  lm_type : option string;
  lm_config : Dict.t json
}.

(** The globals as the module sets them when it is loaded. *)
Definition initial_globals : Globals :=
  {| current_lm := None; lm_type := None; lm_config := [] |}.

(** The calls [handle_configure_lm] makes into the capability. *)
Record ModelProvider : Type := {
  (** [dspy.LM(name, api_key=api_key)] *)
  dspy_LM : string -> string -> outcome LM;
  (** [lm("Hello, this is a test.")] *)
  lm_call : LM -> string -> outcome json;
  (** [dspy.configure(lm=lm)] *)
  dspy_configure : LM -> outcome unit
}.

(** The arguments of [configure_lm]; each key may be missing. *)
Record ConfigureArgs : Type := {
  cl_model : option string;
  cl_api_key : option string;
  cl_provider : option string
}.

(** [not s] for an optional string: missing or empty. *)
Definition falsy (s : option string) : bool :=
  match s with
  | None => true
  | Some s => String.eqb s ""
  end.

Definition handle_configure_lm (E : Env) (M : ModelProvider) (globals : Globals)
    (args : ConfigureArgs) : json * Globals :=
  try_except
    (if negb (DSPY_AVAILABLE E) then ret (error_result "DSPy is not available", globals)
     else
       let model := cl_model args in
       let api_key := cl_api_key args in
       let provider := default "google" (cl_provider args) in
       if falsy model then ret (error_result "Model name is required", globals)
       else if falsy api_key then ret (error_result "API key is required", globals)
       else
         let model := default "" model in
         let api_key := default "" api_key in
         if String.eqb provider "google" && String.prefix "gemini" model then
           ret (try_except
                  (let! lm := dspy_LM M ("gemini/" +:+ model) api_key in
                   let! test_response := lm_call M lm "Hello, this is a test." in
                   let! _ := dspy_configure M lm in
                   let globals :=
                     {| current_lm := Some lm;
                        lm_type := Some "gemini";
                        lm_config :=
                          [("model", JStr model);
                           ("api_key", JStr (take_chars 8 api_key +:+ "..."));
                           ("provider", JStr provider)] |} in
                   ret (JObj [("status", JStr "ok");
                              ("message",
                               JStr ("Configured " +:+ model +:+ " language model"));
                              ("model", JStr model);
                              ("provider", JStr provider)],
                        globals))
                  (fun e =>
                     (error_result ("LM configuration failed: " +:+ str_exn e),
                      globals)))
         else
           ret (error_result
                  ("Unsupported provider/model: " +:+ provider +:+ "/" +:+ model),
                globals))
    (fun e => (error_result ("LM configuration failed: " +:+ str_exn e), globals)).

(** The arguments of [create_program] as the handler reads them; each
    key may be missing. *)
Record CreateArgs : Type := {
  ca_id : option string;
  ca_signature : option SignatureDef;
  ca_instructions : option string;
  ca_program_type : option string
}.

(** [not signature]: missing, or a dictionary without entries. *)
Definition missing_signature (signature : option SignatureDef) : bool :=
  match signature with
  | None => true
  | Some {| sd_inputs := None; sd_outputs := None |} => true
  | Some _ => false
  end.

Definition handle_create_program (E : Env) (self : DSPyBridge) (args : CreateArgs)
  : json * DSPyBridge :=
  try_except
    (let program_id := ca_id args in
     let signature := ca_signature args in
     let instructions := default "" (ca_instructions args) in
     let program_type := default "predict" (ca_program_type args) in
     if missing_id program_id then ret (error_result "Program ID is required", self)
     else if missing_signature signature then
       ret (error_result "Signature is required", self)
     else
       let '(result, manager) :=
         create_program E (program_manager self) (default "" program_id)
           (default empty_signature_def signature) (Some instructions) program_type in
       ret (result,
            {| start_time := start_time self;
               request_count := request_count self;
               program_manager := manager |}))
    (fun e => (error_result ("Create program failed: " +:+ str_exn e), self)).

(** ** main *)

Module Main.
Section Main.

Context {State : Type}.
Variables (C : Codec) (E : Env) (H : Dispatch.Handlers State).
Variable clock : State -> timestamp.

(** What the process leaves behind: its exit status and what it wrote
    to the standard output. *)
Record Exit : Type := {
  exit_status : Z;
  written : list byte
}.

(** [main], with the value of [--mode] ([None] when the flag is not
    given) and the state of a freshly built [ProtocolHandler]. *)
Definition main (mode : option string) (fresh : State) (stdin : Stream.stream)
  : option Exit :=
  if String.eqb (default "pool-worker" mode) "pool-worker" then
    match Protocol.run C E H clock stdin [] fresh with
    | None => None
    | Some r =>
        match Protocol.run_exit r with
        | Protocol.Raised _ =>
            Some {| exit_status := 1; written := Protocol.run_stdout r |}
        | _ => Some {| exit_status := 0; written := Protocol.run_stdout r |}
        end
    end
  else Some {| exit_status := 1; written := [] |}.

End Main.
End Main.

(** ** A small world to run the model in *)

Module Sample.

(** A capability that builds every signature and answers every call
    with the same prediction. *)
Definition answer : Prediction :=
  {| attributes := [("answer", JStr "4")];
     store := Some [("answer", JStr "4")];
     completions := None;
     dict := Some [("_store", JObj [("answer", JStr "4")])] |}.

Definition traceback : string := "Traceback (most recent call last): ...".

Definition world : Env :=
  {| DSPY_AVAILABLE := true;
     dspy_Signature := fun s => ret {| signature_string := s |};
     dspy_Predict := fun sg => ret {| predict_signature := sg |};
     call := fun _ _ => ret answer;
     time_time := 1700000000;
     str_other := fun _ => "{...}";
     format_exc := fun _ => traceback |}.

(** The same, but every call to a program raises. *)
Definition failing_world : Env :=
  {| DSPY_AVAILABLE := true;
     dspy_Signature := dspy_Signature world;
     dspy_Predict := dspy_Predict world;
     call := fun _ _ => raise (CapabilityError "connection refused");
     time_time := time_time world;
     str_other := str_other world;
     format_exc := format_exc world |}.

(** The same, but the capability refuses every signature string. *)
Definition strict_world : Env :=
  {| DSPY_AVAILABLE := true;
     dspy_Signature := fun _ => raise (CapabilityError "invalid signature");
     dspy_Predict := dspy_Predict world;
     call := call world;
     time_time := time_time world;
     str_other := str_other world;
     format_exc := format_exc world |}.

(** A result whose only attribute reads like a placeholder, and which
    has neither [_store] nor [_completions]. *)
Definition bracketed_answer : Prediction :=
  {| attributes := [("answer", JStr "[no answer]")];
     store := None;
     completions := None;
     dict := Some [("answer", JStr "[no answer]")] |}.

Definition bracketed_world : Env :=
  {| DSPY_AVAILABLE := true;
     dspy_Signature := dspy_Signature world;
     dspy_Predict := dspy_Predict world;
     call := fun _ _ => ret bracketed_answer;
     time_time := time_time world;
     str_other := str_other world;
     format_exc := format_exc world |}.

Definition question_answer : SignatureDef :=
  {| sd_inputs := Some [ {| field_name := "question" |} ];
     sd_outputs := Some [ {| field_name := "answer" |} ] |}.

Definition question_answer_reason : SignatureDef :=
  {| sd_inputs := Some [ {| field_name := "question" |} ];
     sd_outputs := Some [ {| field_name := "answer" |};
                          {| field_name := "reason" |} ] |}.

Definition inputs : Dict.t json := [("question", JStr "2+2?")].

(** A snapshot as an external store would hand it over, what
    [_recreate_program_from_data] makes of it when a model is
    configured, and the arguments of an [execute_program] request that
    carries it. *)
Definition snapshot : ProgramData :=
  {| pd_signature_def := Some question_answer;
     pd_program_id := Some (JStr "p1");
     pd_created_at := Some (JFloat 1700000000);
     pd_execution_count := Some (JInt 3);
     pd_last_executed := None |}.

Definition recreated : RecreatedInfo :=
  {| ri_program :=
       {| predict_signature := {| signature_string := "question -> answer" |} |};
     ri_signature_class := {| signature_string := "question -> answer" |};
     ri_field_mapping := [("question", "question"); ("answer", "answer")];
     ri_signature_def := question_answer;
     ri_program_id := JStr "p1";
     ri_created_at := JFloat 1700000000;
     ri_execution_count := JInt 3;
     ri_last_executed := JNull |}.

Definition stateless_request : ExecuteArgs :=
  {| ea_program_id := Some "p1";
     ea_inputs := Some inputs;
     ea_program_data := Some snapshot |}.

Definition bridge : DSPyBridge :=
  {| start_time := 1700000000;
     request_count := 0;
     program_manager := new_manager |}.

Definition gemini : LM := {| lm_model := "gemini-1.5-flash" |}.

(** A codec for the documents [null], [true], [false], [[]] and [{}];
    it serialises every other document as [{}] and parses nothing else. *)
Definition dumps (v : json) : list byte :=
  match v with
  | JNull => [x6e; x75; x6c; x6c]
  | JBool true => [x74; x72; x75; x65]
  | JBool false => [x66; x61; x6c; x73; x65]
  | JArr [] => [x5b; x5d]
  | _ => [x7b; x7d]
  end.

Definition loads (data : list byte) : option json :=
  match data with
  | [x6e; x75; x6c; x6c] => Some JNull
  | [x74; x72; x75; x65] => Some (JBool true)
  | [x66; x61; x6c; x73; x65] => Some (JBool false)
  | [x5b; x5d] => Some (JArr [])
  | [x7b; x7d] => Some (JObj [])
  | _ => None
  end.

Definition codec : Codec := {| json_dumps := dumps; json_loads := loads |}.

(** Handlers that do nothing but answer, over a state that counts the
    requests served; [get_program] raises. *)
Definition served (result : json) : Dispatch.handler nat :=
  fun _ n => (ret result, S n).

Definition table : Dispatch.Handlers nat :=
  {| Dispatch.handle_ping := served (JObj [("status", JStr "ok")]);
     Dispatch.handle_configure_lm := served (JObj [("status", JStr "ok")]);
     Dispatch.handle_create_program := served (JObj [("status", JStr "ok")]);
     Dispatch.handle_execute_program := served (JObj [("status", JStr "ok")]);
     Dispatch.get_program :=
       fun _ n => (raise (AttributeError "'list' object has no attribute 'get'"), S n);
     Dispatch.list_programs := served (JObj [("status", JStr "ok")]);
     Dispatch.delete_program := served (JObj [("status", JStr "ok")]);
     Dispatch.clear_session := served (JObj [("status", JStr "ok")]) |}.

(** A process in which [import dspy] failed. *)
Definition offline_world : Env :=
  {| DSPY_AVAILABLE := false;
     dspy_Signature := fun _ => raise (RuntimeError "DSPy not available");
     dspy_Predict := fun _ => raise (RuntimeError "DSPy not available");
     call := fun _ _ => raise (RuntimeError "DSPy not available");
     time_time := time_time world;
     str_other := str_other world;
     format_exc := format_exc world |}.

Definition configure : ConfigureArgs :=
  {| cl_model := Some "gemini-1.5-flash";
     cl_api_key := Some "AIzaSyD-0123456789abcdef";
     cl_provider := None |}.

(** A provider that builds every model and answers the test call. *)
Definition provider : ModelProvider :=
  {| dspy_LM := fun name _ => ret {| lm_model := name |};
     lm_call := fun _ _ => ret (JArr [JStr "Hello!"]);
     dspy_configure := fun _ => ret tt |}.

(** The record [create_program] stores in [world] for
    [question_answer]. *)
Definition stored : ProgramInfo :=
  {| pi_program :=
       {| predict_signature := {| signature_string := "question -> answer" |} |};
     pi_signature_class := {| signature_string := "question -> answer" |};
     pi_field_mapping := [("question", "question"); ("answer", "answer")];
     pi_signature_def := question_answer;
     pi_instructions := None;
     pi_program_type := "predict";
     pi_created_at := 1700000000;
     pi_execution_count := 0 |}.

End Sample.

(** * Properties *)

(** ** [struct] and the frame *)

Lemma byte_to_Z_range b : 0 <= Struct.byte_to_Z b < 256.
Proof. unfold Struct.byte_to_Z. pose proof (Byte.to_N_bounded b). lia. Qed.

Lemma byte_to_of_Z z : 0 <= z < 256 -> Struct.byte_to_Z (Struct.byte_of_Z z) = z.
Proof.
  intros Hz. unfold Struct.byte_to_Z, Struct.byte_of_Z.
  destruct (Byte.of_N (Z.to_N z)) as [b|] eqn:Hb.
  - apply Byte.to_of_N in Hb. rewrite Hb. lia.
  - apply Byte.of_N_None_iff in Hb. lia.
Qed.

Lemma octet_range x : 0 <= Z.land x 255 < 256.
Proof.
  change 255 with (Z.ones 8). rewrite Z.land_ones by lia.
  apply Z.mod_pos_bound. lia.
Qed.

Lemma testbit_octet n k i : 0 <= i ->
  Z.testbit (Z.shiftl (Z.land (Z.shiftr n k) 255) k) i =
  if (k <=? i) && (i <? k + 8) then Z.testbit n i else false.
Proof.
  intros Hi. rewrite Z.shiftl_spec by lia.
  destruct (Z.leb_spec k i); simpl.
  - rewrite Z.land_spec, Z.shiftr_spec by lia.
    replace (i - k + k) with i by lia.
    change 255 with (Z.ones 8).
    destruct (Z.ltb_spec i (k + 8)).
    + rewrite Z.ones_spec_low by lia. apply andb_true_r.
    + rewrite Z.ones_spec_high by lia. apply andb_false_r.
  - apply Z.testbit_neg_r. lia.
Qed.

Lemma testbit_low_octet n i : 0 <= i ->
  Z.testbit (Z.land n 255) i = if i <? 8 then Z.testbit n i else false.
Proof.
  intros Hi. rewrite Z.land_spec. change 255 with (Z.ones 8).
  destruct (Z.ltb_spec i 8).
  - rewrite Z.ones_spec_low by lia. apply andb_true_r.
  - rewrite Z.ones_spec_high by lia. apply andb_false_r.
Qed.

Lemma testbit_above_32 n i : 0 <= n < 2 ^ 32 -> 32 <= i -> Z.testbit n i = false.
Proof.
  intros Hn Hi. destruct (Z.eq_dec n 0) as [->|]; [apply Z.bits_0|].
  apply Z.bits_above_log2; [lia|].
  apply Z.lt_le_trans with 32; [|lia].
  apply Z.log2_lt_pow2; lia.
Qed.

Lemma octets_recompose n : 0 <= n < 2 ^ 32 ->
  Z.lor (Z.shiftl (Z.land (Z.shiftr n 24) 255) 24)
    (Z.lor (Z.shiftl (Z.land (Z.shiftr n 16) 255) 16)
      (Z.lor (Z.shiftl (Z.land (Z.shiftr n 8) 255) 8) (Z.land n 255))) = n.
Proof.
  intros Hn. apply Z.bits_inj'. intros i Hi.
  rewrite !Z.lor_spec.
  rewrite !testbit_octet by exact Hi.
  rewrite testbit_low_octet by exact Hi.
  pose proof (testbit_above_32 n i Hn) as Hhigh.
  destruct (Z.leb_spec 24 i), (Z.ltb_spec i (24 + 8)),
    (Z.leb_spec 16 i), (Z.ltb_spec i (16 + 8)),
    (Z.leb_spec 8 i), (Z.ltb_spec i (8 + 8)),
    (Z.ltb_spec i 8); simpl;
    rewrite ?orb_false_r; try reflexivity; try lia.
  all: symmetry; apply Hhigh; lia.
Qed.

Lemma pack_I_range n hdr : Struct.pack_I n = Some hdr -> 0 <= n < 2 ^ 32.
Proof.
  unfold Struct.pack_I. destruct (Z.leb_spec 0 n), (Z.ltb_spec n (2 ^ 32));
    simpl; intros; try discriminate; lia.
Qed.

Lemma pack_I_in_range n : 0 <= n < 2 ^ 32 -> is_Some (Struct.pack_I n).
Proof.
  intros [H0 H1]. unfold Struct.pack_I.
  destruct (Z.leb_spec 0 n), (Z.ltb_spec n (2 ^ 32)); simpl; eauto; lia.
Qed.

Lemma pack_I_out_of_range n : 2 ^ 32 <= n -> Struct.pack_I n = None.
Proof.
  intros H. unfold Struct.pack_I.
  destruct (Z.ltb_spec n (2 ^ 32)); [lia|]. by rewrite andb_false_r.
Qed.

(** The header is four bytes and [unpack_I] reads the length back. *)
Lemma unpack_pack_I n hdr :
  Struct.pack_I n = Some hdr ->
  length hdr = 4%nat /\ Struct.unpack_I hdr = Some n.
Proof.
  intros Hp. pose proof (pack_I_range _ _ Hp) as Hn.
  unfold Struct.pack_I in Hp.
  destruct ((0 <=? n) && (n <? 2 ^ 32)); [|discriminate].
  injection Hp as <-. split; [reflexivity|].
  unfold Struct.unpack_I.
  rewrite !byte_to_of_Z by apply octet_range.
  f_equal. apply octets_recompose, Hn.
Qed.

Lemma unpack_I_nonneg hdr n : Struct.unpack_I hdr = Some n -> 0 <= n.
Proof.
  destruct hdr as [|b0 [|b1 [|b2 [|b3 [|]]]]]; try discriminate.
  intros [= <-].
  pose proof (byte_to_Z_range b0). pose proof (byte_to_Z_range b1).
  pose proof (byte_to_Z_range b2). pose proof (byte_to_Z_range b3).
  repeat (apply Z.lor_nonneg; split); try apply Z.shiftl_nonneg; lia.
Qed.

Lemma read_exact (data rest : list byte) :
  Stream.read (Z.of_nat (length data)) (data ++ rest) = (data, rest).
Proof.
  unfold Stream.read. rewrite Nat2Z.id.
  by rewrite take_app_length, drop_app_length.
Qed.

Lemma read_short n (s : Stream.stream) :
  Z.of_nat (length s) < n -> Stream.read n s = (s, []).
Proof.
  intros H. unfold Stream.read.
  rewrite take_ge, drop_ge by lia. reflexivity.
Qed.

(** Reading back a frame: header, then exactly the payload. *)
Lemma read_frame_framed (json_data hdr rest : list byte) :
  Struct.pack_I (Z.of_nat (length json_data)) = Some hdr ->
  Protocol.read_frame (hdr ++ json_data ++ rest) = (Some json_data, rest).
Proof.
  intros Hp. destruct (unpack_pack_I _ _ Hp) as [Hlen Hun].
  unfold Protocol.read_frame.
  replace 4 with (Z.of_nat (length hdr)) by lia.
  rewrite read_exact, Hlen. simpl negb. cbv iota.
  rewrite Hun, read_exact, Z.eqb_refl. reflexivity.
Qed.

Lemma read_message_framed (C : Codec) (json_data hdr rest : list byte) :
  Struct.pack_I (Z.of_nat (length json_data)) = Some hdr ->
  Protocol.read_message C (hdr ++ json_data ++ rest) =
  (default JNull (json_loads C json_data), rest).
Proof.
  intros Hp. unfold Protocol.read_message.
  rewrite (read_frame_framed _ _ _ Hp).
  by destruct (json_loads C json_data).
Qed.

(** C1 (as amended): for every payload of fewer than 2^32 bytes, the empty
    one included, the frame is the four-byte big-endian length followed
    by exactly the payload bytes, and reading the frame gives the payload
    back and leaves what follows it in the stream; [write_message] emits
    that frame for the document's serialisation, and [read_message] on it
    returns the document whenever the JSON library parses the
    serialisation back to it. *)
Theorem frame_round_trip (C : Codec) (D stdout rest : list byte) :
  Z.of_nat (length D) < 2 ^ 32 ->
  exists hdr,
    Struct.pack_I (Z.of_nat (length D)) = Some hdr /\
    length hdr = 4%nat /\
    Struct.unpack_I hdr = Some (Z.of_nat (length D)) /\
    Protocol.write_frame D stdout = Some (stdout ++ hdr ++ D) /\
    Protocol.read_frame (hdr ++ D ++ rest) = (Some D, rest) /\
    forall message, json_dumps C message = D ->
      Protocol.write_message C message stdout = (true, stdout ++ hdr ++ D) /\
      (json_loads C D = Some message ->
       Protocol.read_message C (hdr ++ D ++ rest) = (message, rest)).
Proof.
  intros Hlen.
  destruct (pack_I_in_range (Z.of_nat (length D))) as [hdr Hp]; [lia|].
  destruct (unpack_pack_I _ _ Hp) as [H4 Hun].
  exists hdr. repeat split; try assumption.
  - unfold Protocol.write_frame. by rewrite Hp.
  - by apply read_frame_framed.
  - subst D. unfold Protocol.write_message, Protocol.write_frame. by rewrite Hp.
  - intros Hloads. rewrite (read_message_framed _ _ _ _ Hp), Hloads. reflexivity.
Qed.

Lemma frame_round_trip_witness :
  Protocol.write_message Sample.codec (JObj []) [] =
    (true, [x00; x00; x00; x02; x7b; x7d]) /\
  Protocol.read_message Sample.codec [x00; x00; x00; x02; x7b; x7d; x00] =
    (JObj [], [x00]).
Proof.
  destruct (frame_round_trip Sample.codec [x7b; x7d] [] [x00])
    as (hdr & Hp & _ & _ & _ & _ & Hm); [simpl; lia|].
  injection Hp as <-.
  destruct (Hm (JObj []) eq_refl) as [Hw Hr].
  split; [exact Hw | exact (Hr eq_refl)].
Defined.

(** C1, as stated, fails: a payload of 2^32 bytes has no frame, since
    [struct.pack] refuses its length and nothing is written. *)
Lemma frame_round_trip_unbounded_fails :
  ~ (forall D : list byte, exists frame,
       Protocol.write_frame D [] = Some frame /\
       Protocol.read_frame frame = (Some D, [])).
Proof.
  intros Hall.
  assert (Hsize : Z.of_nat (Z.to_nat (2 ^ 32)) = 2 ^ 32)
    by (apply Z2Nat.id; discriminate).
  revert Hsize. generalize (Z.to_nat (2 ^ 32)). intros n Hsize.
  destruct (Hall (replicate n x00)) as (frame & Hw & _).
  unfold Protocol.write_frame in Hw.
  rewrite length_replicate, Hsize in Hw.
  discriminate.
Qed.

(** C2: on a stream that ends before four header bytes have come, or
    before as many payload bytes have come as the header declares,
    [read_message] returns [None], the end-of-stream marker. *)
Theorem read_message_partial_stream (C : Codec) (stdin : Stream.stream) :
  (length stdin < 4)%nat \/
  (exists hdr body declared,
      stdin = hdr ++ body /\ length hdr = 4%nat /\
      Struct.unpack_I hdr = Some declared /\
      Z.of_nat (length body) < declared) ->
  Protocol.read_message C stdin = (JNull, []).
Proof.
  intros [Hshort | (hdr & body & declared & -> & H4 & Hun & Hbody)];
    unfold Protocol.read_message, Protocol.read_frame.
  - rewrite read_short by lia.
    destruct (Nat.eqb_spec (length stdin) 4); [lia|]. reflexivity.
  - replace 4 with (Z.of_nat (length hdr)) by lia.
    rewrite <- (app_nil_r body), read_exact, app_nil_r, H4. simpl negb. cbv iota.
    rewrite Hun, read_short by lia.
    destruct (Z.eqb_spec (Z.of_nat (length body)) declared); [lia|]. reflexivity.
Qed.

Lemma read_message_partial_stream_witness :
  Protocol.read_message Sample.codec [x00; x00] = (JNull, []) /\
  Protocol.read_message Sample.codec [x00; x00; x00; x05; x7b; x7d] = (JNull, []).
Proof.
  split.
  - apply read_message_partial_stream. left. simpl. lia.
  - apply read_message_partial_stream. right.
    exists [x00; x00; x00; x05], [x7b; x7d], 5.
    repeat split; simpl; lia.
Defined.

(** ** The protocol loop *)

Lemma read_frame_consumes (stdin stdin' : Stream.stream) (json_data : list byte) :
  Protocol.read_frame stdin = (Some json_data, stdin') ->
  (length stdin' + 4 <= length stdin)%nat.
Proof.
  unfold Protocol.read_frame, Stream.read.
  destruct (Nat.eqb_spec (length (take (Z.to_nat 4) stdin)) 4) as [H4|];
    simpl; [|discriminate].
  destruct (Struct.unpack_I _); [|discriminate].
  destruct (_ =? _); simpl; [|discriminate].
  intros [= _ <-]. rewrite length_take in H4. rewrite !length_drop. lia.
Qed.

Lemma read_message_consumes (C : Codec) (stdin stdin' : Stream.stream) (request : json) :
  Protocol.read_message C stdin = (request, stdin') ->
  request <> JNull ->
  (length stdin' + 4 <= length stdin)%nat.
Proof.
  unfold Protocol.read_message.
  destruct (Protocol.read_frame stdin) as [[json_data|] s] eqn:Hf.
  - apply read_frame_consumes in Hf.
    destruct (json_loads C json_data); intros [= <- <-]; intros; [lia|congruence].
  - intros [= <- <-]. congruence.
Qed.

Section Loop.

Context {State : Type}.
Variables (C : Codec) (E : Env) (H : Dispatch.Handlers State).
Variable clock : State -> timestamp.

Lemma step_consumes stdin stdout st stdin' stdout' st' :
  Protocol.step C E H clock stdin stdout st = inr (stdin', stdout', st') ->
  (length stdin' + 4 <= length stdin)%nat.
Proof.
  unfold Protocol.step.
  destruct (Protocol.read_message C stdin) as [request s] eqn:Hr.
  assert (Hlen : request <> JNull -> (length s + 4 <= length stdin)%nat)
    by (apply (read_message_consumes _ _ _ _ Hr)).
  destruct request; try discriminate; simpl.
  destruct (Dispatch.process_command _ _ _ _ _) as [[e|r] st1].
  all: destruct (Protocol.write_message _ _ _) as [[|] out]; try discriminate.
  all: intros [= <- _ _]; apply Hlen; discriminate.
Qed.

(** The turns the length of the stream allows are enough. *)
Lemma run_turns_total turns stdin stdout st :
  (length stdin < turns)%nat ->
  is_Some (Protocol.run_turns C E H clock turns stdin stdout st).
Proof.
  revert stdin stdout st.
  induction turns as [|turns IH]; intros stdin stdout st Hlt; [lia|].
  simpl.
  destruct (Protocol.step C E H clock stdin stdout st)
    as [r|[[stdin' stdout'] st']] eqn:Hs; [eauto|].
  apply step_consumes in Hs. apply IH. lia.
Qed.

(** X3: [run] comes to an end on every stream of finitely many bytes,
    whatever the handlers and the codec do. *)
Theorem run_total stdin stdout st :
  is_Some (Protocol.run C E H clock stdin stdout st).
Proof. apply run_turns_total. lia. Qed.

End Loop.

(** C10: a well-framed message whose payload does not parse makes
    [read_message] return [None], exactly what it returns on a closed
    stream, and [run] leaves the loop there: nothing is written, the
    state is untouched, and the rest of the stream stays unread. *)
Theorem malformed_payload_ends_loop {State : Type} (C : Codec) (E : Env)
    (H : Dispatch.Handlers State) (clock : State -> timestamp)
    (json_data hdr rest stdout : list byte) (st : State) :
  Struct.pack_I (Z.of_nat (length json_data)) = Some hdr ->
  json_loads C json_data = None ->
  Protocol.read_message C (hdr ++ json_data ++ rest) = (JNull, rest) /\
  fst (Protocol.read_message C (hdr ++ json_data ++ rest)) =
    fst (Protocol.read_message C []) /\
  Protocol.run C E H clock (hdr ++ json_data ++ rest) stdout st =
    Some {| Protocol.run_exit := Protocol.EndOfStream;
            Protocol.run_stdin := rest;
            Protocol.run_stdout := stdout;
            Protocol.run_state := st |}.
Proof.
  intros Hp Hbad.
  assert (Hr : Protocol.read_message C (hdr ++ json_data ++ rest) = (JNull, rest))
    by (rewrite (read_message_framed _ _ _ _ Hp), Hbad; reflexivity).
  split; [exact Hr|]. split; [by rewrite Hr|].
  unfold Protocol.run. cbn [Protocol.run_turns].
  unfold Protocol.step. rewrite Hr. reflexivity.
Qed.

Lemma malformed_payload_ends_loop_witness :
  Protocol.run Sample.codec Sample.world Sample.table (fun _ => 0)
    [x00; x00; x00; x01; x7b; x00; x00; x00; x02; x7b; x7d] [] 0%nat =
  Some {| Protocol.run_exit := Protocol.EndOfStream;
          Protocol.run_stdin := [x00; x00; x00; x02; x7b; x7d];
          Protocol.run_stdout := [];
          Protocol.run_state := 0%nat |}.
Proof.
  apply (malformed_payload_ends_loop Sample.codec Sample.world Sample.table
           (fun _ => 0) [x7b] [x00; x00; x00; x01]
           [x00; x00; x00; x02; x7b; x7d] [] 0%nat);
    reflexivity.
Defined.

(** ** Dictionaries *)

Lemma dict_get_set_eq {V} (k : string) (v : V) (d : Dict.t V) :
  Dict.get k (Dict.set k v d) = Some v.
Proof.
  induction d as [|[k' v'] d IH]; simpl.
  - by rewrite String.eqb_refl.
  - destruct (String.eqb_spec k k') as [->|Hne]; simpl.
    + by rewrite String.eqb_refl.
    + destruct (String.eqb_spec k k'); [contradiction|]. exact IH.
Qed.

Lemma dict_get_set_ne {V} (k k' : string) (v : V) (d : Dict.t V) :
  k <> k' -> Dict.get k' (Dict.set k v d) = Dict.get k' d.
Proof.
  intros Hne. induction d as [|[k0 v0] d IH]; simpl.
  - destruct (String.eqb_spec k' k); [congruence|reflexivity].
  - destruct (String.eqb_spec k k0) as [->|]; simpl.
    + destruct (String.eqb_spec k' k0); [congruence|reflexivity].
    + destruct (String.eqb_spec k' k0); [reflexivity|exact IH].
Qed.

Lemma dict_set_nonempty {V} (k : string) (v : V) (d : Dict.t V) :
  Dict.is_empty (Dict.set k v d) = false.
Proof. destruct d as [|[k' v'] d]; simpl; [reflexivity|]. by destruct (String.eqb k k'). Qed.

(** ** The registry *)

Lemma status_error_result msg : status (error_result msg) = Some (JStr "error").
Proof. reflexivity. Qed.

(** A [create_program] that reports [ok] has stored a fresh record. *)
Lemma create_program_ok E self program_id signature_def instructions program_type
    result self' :
  create_program E self program_id signature_def instructions program_type
    = (result, self') ->
  status result = Some (JStr "ok") ->
  exists signature_class field_mapping program,
    build_signature E signature_def = inr (signature_class, field_mapping) /\
    dspy_Predict E signature_class = inr program /\
    programs self' =
      <[program_id :=
          {| pi_program := program;
             pi_signature_class := signature_class;
             pi_field_mapping := field_mapping;
             pi_signature_def := signature_def;
             pi_instructions := instructions;
             pi_program_type := program_type;
             pi_created_at := time_time E;
             pi_execution_count := 0 |}]> (programs self).
Proof.
  unfold create_program.
  destruct (DSPY_AVAILABLE E); simpl.
  2: { intros [= <- <-]. discriminate. }
  destruct (build_signature E signature_def)
    as [e|[signature_class field_mapping]] eqn:Hb; simpl.
  { intros [= <- <-]. discriminate. }
  destruct (String.eqb program_type "predict"); simpl.
  2: { intros [= <- <-]. discriminate. }
  destruct (dspy_Predict E signature_class) as [e|program] eqn:Hp; simpl.
  { intros [= <- <-]. discriminate. }
  intros [= <- <-] _. by exists signature_class, field_mapping, program.
Qed.

(** What [execute_program] does, by the three ways it can go. *)
Lemma execute_program_cases E self program_id inputs :
  match programs self !! program_id with
  | None =>
      execute_program E self program_id inputs =
      (error_result ("Program '" +:+ program_id +:+ "' not found"), self)
  | Some program_info =>
      match call E (pi_program program_info) inputs with
      | inl e =>
          execute_program E self program_id inputs =
          (error_result ("Program execution failed: " +:+ str_exn e), self)
      | inr result =>
          execute_program E self program_id inputs =
          (JObj [("status", JStr "ok");
                 ("program_id", JStr program_id);
                 ("inputs", JObj inputs);
                 ("outputs",
                  JObj (extract_declared result
                          (default [] (sd_outputs (pi_signature_def program_info)))));
                 ("execution_count", JInt (pi_execution_count program_info + 1))],
           {| programs :=
               <[program_id := count_execution program_info]> (programs self) |})
      end
  end.
Proof.
  unfold execute_program.
  destruct (programs self !! program_id) as [program_info|]; [|reflexivity].
  destruct (call E (pi_program program_info) inputs); reflexivity.
Qed.

(** C7: executing an id the registry does not hold fails with the
    not-found error naming that id, and leaves the registry as it was. *)
Theorem execute_unknown_program (E : Env) (self : DSPyProgramManager)
    (program_id : string) (inputs : Dict.t json) :
  programs self !! program_id = None ->
  execute_program E self program_id inputs =
  (JObj [("status", JStr "error");
         ("error", JStr ("Program '" +:+ program_id +:+ "' not found"))],
   self).
Proof.
  intros Hnone. pose proof (execute_program_cases E self program_id inputs) as Hc.
  by rewrite Hnone in Hc.
Qed.

Lemma execute_unknown_program_witness :
  execute_program Sample.world new_manager "p1" Sample.inputs =
  (JObj [("status", JStr "error"); ("error", JStr "Program 'p1' not found")],
   new_manager).
Proof.
  apply (execute_unknown_program Sample.world new_manager "p1" Sample.inputs).
  reflexivity.
Defined.

(** C5: the counter of a record is 0 right after the create that stored
    it; an execute that reports [ok] has found the record, called its
    program with success, and left the registry with that record's
    counter raised by exactly one (and nothing else changed); an execute
    whose program call raises leaves the registry as it was. *)
Theorem execution_counter (E : Env) (self : DSPyProgramManager)
    (program_id : string) :
  (forall signature_def instructions program_type result self',
      create_program E self program_id signature_def instructions program_type
        = (result, self') ->
      status result = Some (JStr "ok") ->
      pi_execution_count <$> programs self' !! program_id = Some 0) /\
  (forall inputs result self',
      execute_program E self program_id inputs = (result, self') ->
      status result = Some (JStr "ok") ->
      exists program_info,
        programs self !! program_id = Some program_info /\
        (exists prediction,
            call E (pi_program program_info) inputs = inr prediction) /\
        programs self' = <[program_id := count_execution program_info]> (programs self) /\
        pi_execution_count <$> programs self' !! program_id
          = Some (pi_execution_count program_info + 1) /\
        field "execution_count" result
          = Some (JInt (pi_execution_count program_info + 1))) /\
  (forall inputs program_info e,
      programs self !! program_id = Some program_info ->
      call E (pi_program program_info) inputs = inl e ->
      execute_program E self program_id inputs =
      (error_result ("Program execution failed: " +:+ str_exn e), self)).
Proof.
  split; [|split].
  - intros signature_def instructions program_type result self' Hc Hok.
    destruct (create_program_ok _ _ _ _ _ _ _ _ Hc Hok)
      as (signature_class & field_mapping & program & _ & _ & ->).
    by rewrite lookup_insert_eq.
  - intros inputs result self' Hx Hok.
    pose proof (execute_program_cases E self program_id inputs) as Hc.
    destruct (programs self !! program_id) as [program_info|].
    2: { rewrite Hc in Hx. injection Hx as <- <-. discriminate. }
    exists program_info. split; [reflexivity|].
    destruct (call E (pi_program program_info) inputs) as [e|r].
    { rewrite Hc in Hx. injection Hx as <- <-. discriminate. }
    rewrite Hc in Hx. injection Hx as <- <-. simpl.
    rewrite lookup_insert_eq. eauto.
  - intros inputs program_info e Hl He.
    pose proof (execute_program_cases E self program_id inputs) as Hc.
    by rewrite Hl, He in Hc.
Qed.

Lemma execution_counter_witness :
  let created :=
    snd (create_program Sample.world new_manager "p1" Sample.question_answer
           None "predict") in
  pi_execution_count <$> programs created !! "p1" = Some 0 /\
  pi_execution_count <$>
    programs (snd (execute_program Sample.world created "p1" Sample.inputs)) !! "p1"
    = Some 1 /\
  snd (execute_program Sample.failing_world created "p1" Sample.inputs) = created.
Proof.
  intros created.
  destruct (execution_counter Sample.world new_manager "p1") as (Hcreate & _ & _).
  destruct (execution_counter Sample.world created "p1") as (_ & Hexecute & _).
  destruct (execution_counter Sample.failing_world created "p1") as (_ & _ & Hfail).
  split; [|split].
  - eapply Hcreate; [apply surjective_pairing|reflexivity].
  - destruct (Hexecute Sample.inputs _ _ (surjective_pairing _) eq_refl)
      as (program_info & Hl & _ & _ & Hcount & _).
    rewrite Hcount. vm_compute in Hl. injection Hl as <-. reflexivity.
  - erewrite Hfail; reflexivity.
Defined.

Lemma list_programs_count (self : DSPyProgramManager) :
  field "count" (list_programs self) = Some (JInt (Z.of_nat (size (programs self)))).
Proof. unfold list_programs. simpl. by rewrite length_map, length_map_to_list. Qed.

(** On any registry, a create that reports [ok] for an id already held
    replaces the record and keeps the number of records. *)
Lemma create_program_overwrites E self program_id signature_def instructions
    program_type result self' :
  is_Some (programs self !! program_id) ->
  create_program E self program_id signature_def instructions program_type
    = (result, self') ->
  status result = Some (JStr "ok") ->
  size (programs self') = size (programs self).
Proof.
  intros [old Hold] Hc Hok.
  destruct (create_program_ok _ _ _ _ _ _ _ _ Hc Hok) as (sg & fm & p & _ & _ & ->).
  transitivity (S (size (delete program_id (programs self)))).
  - rewrite <- insert_delete_eq. apply map_size_insert_None, lookup_delete_eq.
  - rewrite <- (insert_delete_id (programs self) program_id old Hold) at 2.
    symmetry. apply map_size_insert_None, lookup_delete_eq.
Qed.

(** A create the capability accepts succeeds, whatever the registry
    holds: the record goes in under the id, in place of any record
    already there. *)
Lemma create_program_accepted E self program_id signature_def instructions
    signature_class field_mapping program :
  build_signature E signature_def = inr (signature_class, field_mapping) ->
  dspy_Predict E signature_class = inr program ->
  create_program E self program_id signature_def instructions "predict" =
  (JObj [("status", JStr "ok");
         ("program_id", JStr program_id);
         ("signature_def", signature_def_json signature_def);
         ("program_type", JStr "predict")],
   {| programs :=
       <[program_id :=
           {| pi_program := program;
              pi_signature_class := signature_class;
              pi_field_mapping := field_mapping;
              pi_signature_def := signature_def;
              pi_instructions := instructions;
              pi_program_type := "predict";
              pi_created_at := time_time E;
              pi_execution_count := 0 |}]> (programs self) |}).
Proof.
  intros Hb Hp. unfold create_program.
  assert (Hav : DSPY_AVAILABLE E = true).
  { unfold build_signature in Hb. by destruct (DSPY_AVAILABLE E). }
  rewrite Hav, Hb. simpl. by rewrite Hp.
Qed.

(** C6: a create for an id the registry already holds does not fail.
    Where the capability builds the signature and the program, the
    create reports [ok] and the record held under the id is the new
    one, its counter 0, the number of records unchanged.  After a
    first create on an empty registry that reported [ok], such a second
    create with the same id leaves a registry of which [list_programs]
    counts one record, that of the second create. *)
Theorem duplicate_create_overwrites (E1 E2 : Env) (program_id : string)
    (signature_def1 signature_def2 : SignatureDef)
    (instructions1 instructions2 : option string) (program_type1 : string)
    (result1 result2 : json) (self1 self2 : DSPyProgramManager)
    (signature_class : Signature) (field_mapping : Dict.t string)
    (program : Predict) :
  create_program E1 new_manager program_id signature_def1 instructions1 program_type1
    = (result1, self1) ->
  status result1 = Some (JStr "ok") ->
  build_signature E2 signature_def2 = inr (signature_class, field_mapping) ->
  dspy_Predict E2 signature_class = inr program ->
  create_program E2 self1 program_id signature_def2 instructions2 "predict"
    = (result2, self2) ->
  let second :=
    {| pi_program := program;
       pi_signature_class := signature_class;
       pi_field_mapping := field_mapping;
       pi_signature_def := signature_def2;
       pi_instructions := instructions2;
       pi_program_type := "predict";
       pi_created_at := time_time E2;
       pi_execution_count := 0 |} in
  status result2 = Some (JStr "ok") /\
  field "program_id" result2 = Some (JStr program_id) /\
  field "count" (list_programs self2) = Some (JInt 1) /\
  (forall other, other <> program_id -> programs self2 !! other = None) /\
  programs self2 !! program_id = Some second /\
  forall held result held',
    is_Some (programs held !! program_id) ->
    create_program E2 held program_id signature_def2 instructions2 "predict"
      = (result, held') ->
    status result = Some (JStr "ok") /\
    programs held' !! program_id = Some second /\
    size (programs held') = size (programs held).
Proof.
  intros Hc1 Hok1 Hb Hp Hc2 second.
  destruct (create_program_ok _ _ _ _ _ _ _ _ Hc1 Hok1) as (sg1 & fm1 & p1 & _ & _ & H1).
  rewrite (create_program_accepted _ _ _ _ _ _ _ _ Hb Hp) in Hc2.
  injection Hc2 as <- <-. fold second.
  split; [reflexivity|]. split; [reflexivity|]. split; [|split; [|split]].
  - rewrite list_programs_count. cbn [programs]. rewrite H1.
    cbn [programs new_manager]. rewrite insert_insert_eq.
    rewrite map_size_insert_None by apply lookup_empty. by rewrite map_size_empty.
  - intros other Hne. cbn [programs]. rewrite H1. cbn [programs new_manager].
    rewrite !lookup_insert_ne by congruence. apply lookup_empty.
  - cbn [programs]. apply lookup_insert_eq.
  - intros held result held' Hheld Hc.
    assert (Hok : status result = Some (JStr "ok")).
    { rewrite (create_program_accepted _ _ _ _ _ _ _ _ Hb Hp) in Hc.
      by injection Hc as <- _. }
    split; [exact Hok|]. split.
    + rewrite (create_program_accepted _ _ _ _ _ _ _ _ Hb Hp) in Hc.
      injection Hc as _ <-. apply lookup_insert_eq.
    + by apply (create_program_overwrites _ _ _ _ _ _ _ _ Hheld Hc).
Qed.

Lemma duplicate_create_overwrites_witness :
  let first :=
    create_program Sample.world new_manager "p1" Sample.question_answer
      None "predict" in
  let second :=
    create_program Sample.world (snd first) "p1" Sample.question_answer_reason
      (Some "Answer briefly.") "predict" in
  status (fst second) = Some (JStr "ok") /\
  field "count" (list_programs (snd second)) = Some (JInt 1) /\
  pi_signature_def <$> programs (snd second) !! "p1"
    = Some Sample.question_answer_reason.
Proof.
  intros first second.
  destruct (duplicate_create_overwrites Sample.world Sample.world "p1"
              Sample.question_answer Sample.question_answer_reason
              None (Some "Answer briefly.") "predict"
              (fst first) (fst second) (snd first) (snd second)
              {| signature_string := "question -> answer, reason" |}
              [("question", "question"); ("answer", "answer"); ("reason", "reason")]
              {| predict_signature :=
                   {| signature_string := "question -> answer, reason" |} |}
              eq_refl eq_refl eq_refl eq_refl eq_refl)
    as (Hok & _ & Hcount & _ & Hl & _).
  split; [exact Hok|]. split; [exact Hcount|]. by rewrite Hl.
Defined.

(** ** Output extraction in the base path *)

Lemma extract_declared_fold result fields (acc : Dict.t json) name :
  Dict.get name
    (fold_left
       (fun outputs output_field =>
          match getattr result (field_name output_field) with
          | Some v => Dict.set (field_name output_field) v outputs
          | None => outputs
          end)
       fields acc) =
  match (if is_declared_output fields name then getattr result name else None) with
  | Some v => Some v
  | None => Dict.get name acc
  end.
Proof.
  revert acc. induction fields as [|f fields IH]; intros acc; simpl; [reflexivity|].
  rewrite IH. clear IH.
  destruct (String.eqb_spec (field_name f) name) as [<-|Hne]; simpl.
  - destruct (is_declared_output fields (field_name f)).
    + destruct (getattr result (field_name f)); [reflexivity|reflexivity].
    + destruct (getattr result (field_name f)) as [v|]; [|reflexivity].
      apply dict_get_set_eq.
  - destruct (is_declared_output fields name), (getattr result name);
      try reflexivity.
    all: destruct (getattr result (field_name f)); [|reflexivity].
    all: by apply dict_get_set_ne.
Qed.

Lemma extract_declared_get result fields name :
  Dict.get name (extract_declared result fields) =
  if is_declared_output fields name then getattr result name else None.
Proof.
  unfold extract_declared. rewrite extract_declared_fold. simpl.
  by destruct (if is_declared_output fields name then _ else _).
Qed.

(** C9: in the registry's execute path the output mapping holds, under
    the name of each declared output field the result has as an
    attribute, that attribute, and nothing else; a declared field the
    result lacks is left out, and the call still reports [ok]. *)
Theorem base_path_outputs (E : Env) (self : DSPyProgramManager)
    (program_id : string) (inputs : Dict.t json)
    (program_info : ProgramInfo) (result : Prediction) :
  programs self !! program_id = Some program_info ->
  call E (pi_program program_info) inputs = inr result ->
  let response := fst (execute_program E self program_id inputs) in
  let fields := default [] (sd_outputs (pi_signature_def program_info)) in
  status response = Some (JStr "ok") /\
  exists outputs,
    field "outputs" response = Some (JObj outputs) /\
    forall name,
      Dict.get name outputs =
      if is_declared_output fields name && hasattr result name
      then getattr result name
      else None.
Proof.
  intros Hl Hcall response fields. subst response.
  pose proof (execute_program_cases E self program_id inputs) as Hc.
  rewrite Hl, Hcall in Hc. rewrite Hc. simpl.
  split; [reflexivity|]. eexists. split; [reflexivity|].
  intros name. rewrite extract_declared_get. fold fields.
  unfold hasattr, Dict.mem, getattr.
  destruct (is_declared_output fields name); [|reflexivity].
  by destruct (Dict.get name (attributes result)).
Qed.

Lemma base_path_outputs_witness :
  let created :=
    snd (create_program Sample.world new_manager "p1"
           Sample.question_answer_reason None "predict") in
  let response := fst (execute_program Sample.world created "p1" Sample.inputs) in
  status response = Some (JStr "ok") /\
  field "outputs" response = Some (JObj [("answer", JStr "4")]).
Proof.
  intros created response.
  destruct (base_path_outputs Sample.world created "p1" Sample.inputs
              {| pi_program :=
                   {| predict_signature :=
                        {| signature_string := "question -> answer, reason" |} |};
                 pi_signature_class :=
                   {| signature_string := "question -> answer, reason" |};
                 pi_field_mapping :=
                   [("question", "question"); ("answer", "answer");
                    ("reason", "reason")];
                 pi_signature_def := Sample.question_answer_reason;
                 pi_instructions := None;
                 pi_program_type := "predict";
                 pi_created_at := 1700000000;
                 pi_execution_count := 0 |}
              Sample.answer)
    as (Hok & outputs & Hout & _); [reflexivity|reflexivity|].
  split; [exact Hok|reflexivity].
Defined.

(** ** The dispatcher *)

Lemma handlers_keys {State} (H : Dispatch.Handlers State) :
  Dict.keys (Dispatch.handlers H) =
  ["ping"; "configure_lm"; "create_program"; "execute_program";
   "get_program"; "list_programs"; "delete_program"; "clear_session"].
Proof. reflexivity. Qed.

Lemma dict_get_keys {V} (k : string) (d : Dict.t V) :
  is_Some (Dict.get k d) <-> In k (Dict.keys d).
Proof.
  induction d as [|[k' v] d IH]; simpl.
  - split; [intros [? [=]]|tauto].
  - destruct (String.eqb_spec k k') as [->|Hne].
    + split; eauto.
    + rewrite IH. split; [tauto|]. intros [?|?]; [congruence|assumption].
Qed.

(** C8: [process_command] on a command name.  A name outside the table
    gets the error result whose [supported_commands] are exactly the
    eight names of the table; a name inside it gets what its handler
    returns, or, when the handler raises, the error result that carries
    the exception's text: nothing is raised to the caller. *)
Theorem process_command_dispatch {State : Type} (E : Env)
    (H : Dispatch.Handlers State) (name : string) (args : json) (st : State) :
  let supported :=
    ["ping"; "configure_lm"; "create_program"; "execute_program";
     "get_program"; "list_programs"; "delete_program"; "clear_session"] in
  match Dict.get name (Dispatch.handlers H) with
  | None =>
      ~ In name supported /\
      Dispatch.process_command E H (JStr name) args st =
      (inr (JObj [("status", JStr "error");
                  ("error", JStr ("Unknown command: " +:+ name));
                  ("supported_commands", JArr (map JStr supported))]),
       st)
  | Some handler =>
      In name supported /\
      match handler args st with
      | (inr result, st') =>
          Dispatch.process_command E H (JStr name) args st = (inr result, st')
      | (inl e, st') =>
          Dispatch.process_command E H (JStr name) args st =
          (inr (JObj [("status", JStr "error");
                      ("error",
                       JStr ("Command '" +:+ name +:+ "' failed: " +:+ str_exn e))]),
           st')
      end
  end.
Proof.
  intros supported.
  pose proof (dict_get_keys name (Dispatch.handlers H)) as Hkeys.
  rewrite handlers_keys in Hkeys. fold supported in Hkeys.
  unfold Dispatch.process_command, Dispatch.handlers_get. simpl bind.
  change (ret (Dict.get name (Dispatch.handlers H)))
    with (@inr exn _ (Dict.get name (Dispatch.handlers H))).
  destruct (Dict.get name (Dispatch.handlers H)) as [handler|].
  - split; [apply Hkeys; eauto|].
    by destruct (handler args st) as [[e|result] st'].
  - split; [|reflexivity].
    intros Hin. apply Hkeys in Hin. by destruct Hin.
Qed.

(** ** The recreation path *)

Lemma diagnostics_fold (text : string) fields (acc : Dict.t string) name :
  Dict.get name
    (fold_left (fun outputs expected_field => Dict.set expected_field text outputs)
       (map field_name fields) acc) =
  if is_declared_output fields name then Some text else Dict.get name acc.
Proof.
  revert acc. induction fields as [|f fields IH]; intros acc; simpl; [reflexivity|].
  rewrite IH.
  destruct (String.eqb_spec (field_name f) name) as [<-|Hne]; simpl.
  - destruct (is_declared_output fields (field_name f)); [reflexivity|].
    apply dict_get_set_eq.
  - destruct (is_declared_output fields name); [reflexivity|].
    by apply dict_get_set_ne.
Qed.

Lemma is_declared_output_In fields f :
  In f fields -> is_declared_output fields (field_name f) = true.
Proof.
  intros Hin. apply existsb_exists. exists f. split; [exact Hin|].
  apply String.eqb_refl.
Qed.

(** C4: in the recreation path, once the program call has returned, the
    result is [ok] whatever the extraction found; and when the
    extraction left nothing real (no outputs, or every value with both
    brackets in it), the output mapping holds the diagnostic text under
    the name of every declared output field, the other entries being
    left as extracted. *)
Theorem extraction_failure_is_success (E : Env) (program_info : RecreatedInfo)
    (inputs : Dict.t json) (result : Prediction) :
  call E (ri_program program_info)
    (convert_inputs (ri_field_mapping program_info) inputs) = inr result ->
  let expected_outputs := default [] (sd_outputs (ri_signature_def program_info)) in
  let extracted :=
    extract_outputs E result (ri_field_mapping program_info) expected_outputs in
  let response := _execute_with_program_info E program_info inputs in
  status response = Some (JStr "ok") /\
  exists outputs,
    field "outputs" response = Some (strings_json outputs) /\
    (no_real_outputs extracted = true ->
     (forall f, In f expected_outputs ->
        Dict.get (field_name f) outputs = Some (diagnostic_text E result)) /\
     (forall name, is_declared_output expected_outputs name = false ->
        Dict.get name outputs = Dict.get name extracted)) /\
    (no_real_outputs extracted = false -> outputs = extracted).
Proof.
  intros Hcall expected_outputs extracted response.
  subst response. unfold _execute_with_program_info.
  rewrite Hcall. simpl. split; [reflexivity|].
  eexists. split; [reflexivity|].
  fold expected_outputs. fold extracted. unfold provide_diagnostics.
  split.
  - intros ->. split.
    + intros f Hin. rewrite diagnostics_fold.
      by rewrite (is_declared_output_In _ _ Hin).
    + intros name Hno. by rewrite diagnostics_fold, Hno.
  - by intros ->.
Qed.

Lemma extraction_failure_is_success_witness :
  _execute_with_program_info Sample.bracketed_world Sample.recreated Sample.inputs =
  JObj [("status", JStr "ok");
        ("outputs",
         JObj [("answer",
                JStr "[DEBUG: Empty completions, LM may not be responding. Store: N/A]")]);
        ("program_id", JStr "p1");
        ("execution_time", JFloat 1700000000)] /\
  Dict.get "answer"
    (extract_outputs Sample.bracketed_world Sample.bracketed_answer
       (ri_field_mapping Sample.recreated) [ {| field_name := "answer" |} ])
    = Some "[no answer]".
Proof.
  destruct (extraction_failure_is_success Sample.bracketed_world Sample.recreated
              Sample.inputs Sample.bracketed_answer eq_refl)
    as (_ & outputs & _ & Hnone & _).
  destruct (Hnone eq_refl) as [Hdiag _].
  pose proof (Hdiag {| field_name := "answer" |} (or_introl eq_refl)) as Hanswer.
  split; reflexivity.
Defined.

(** The text [_recreate_program_from_data] wraps a failure in. *)
Lemma recreate_program_raises_without_lm E program_data :
  DSPY_AVAILABLE E = true ->
  exists reason : exn,
    _recreate_program_from_data E None program_data =
    inl (RuntimeError ("Failed to recreate program: " +:+ str_exn reason +:+ nl +:+
                       "Traceback: " +:+ format_exc E reason)) /\
    (forall built,
        build_signature E (default empty_signature_def (pd_signature_def program_data))
          = inr built ->
        reason = RuntimeError "No LM is loaded.").
Proof.
  intros Hav. unfold _recreate_program_from_data. rewrite Hav. simpl.
  destruct (build_signature E _) as [e|[signature_class field_mapping]]; simpl.
  - exists e. split; [reflexivity|]. intros built [=].
  - exists (RuntimeError "No LM is loaded."). split; [reflexivity|]. reflexivity.
Qed.

(** C3 (as amended): on the recreation path, with the capability linked
    and no language model configured, [handle_execute_program] returns an
    error result and leaves the bridge as it was.  The error is a string:
    the handler's own prefix, then the text of
    [_recreate_program_from_data] around the reason, then the traceback
    texts; the reason is "No LM is loaded." whenever the signature of
    the snapshot can be built. *)
Theorem recreation_without_lm (E : Env) (self : DSPyBridge) (args : ExecuteArgs)
    (program_data : ProgramData) :
  DSPY_AVAILABLE E = true ->
  missing_id (ea_program_id args) = false ->
  ea_program_data args = Some program_data ->
  exists reason : exn,
    let details :=
      "Failed to recreate program: " +:+ str_exn reason +:+ nl +:+
      "Traceback: " +:+ format_exc E reason in
    handle_execute_program E None self args =
    (JObj [("status", JStr "error");
           ("error",
            JStr ("Execute program failed: " +:+ details +:+ nl +:+
                  "Traceback: " +:+ format_exc E (RuntimeError details)))],
     self) /\
    (forall built,
        build_signature E (default empty_signature_def (pd_signature_def program_data))
          = inr built ->
        reason = RuntimeError "No LM is loaded.").
Proof.
  intros Hav Hid Hdata.
  destruct (recreate_program_raises_without_lm E program_data Hav) as (reason & Hre & Hreason).
  exists reason. split; [|exact Hreason].
  unfold handle_execute_program. rewrite Hid, Hdata. simpl.
  rewrite Hre. reflexivity.
Qed.

Lemma recreation_without_lm_witness :
  fst (handle_execute_program Sample.world None Sample.bridge Sample.stateless_request) =
  error_result
    ("Execute program failed: Failed to recreate program: No LM is loaded." +:+ nl +:+
     "Traceback: " +:+ Sample.traceback +:+ nl +:+
     "Traceback: " +:+ Sample.traceback).
Proof.
  destruct (recreation_without_lm Sample.world Sample.bridge Sample.stateless_request
              Sample.snapshot eq_refl eq_refl eq_refl)
    as (reason & Hresult & Hreason).
  rewrite Hresult, (Hreason _ eq_refl). reflexivity.
Defined.

(** C3, as stated, fails.  What comes back when no model is configured
    is the two-member error dictionary every failure of the handler
    gets, its error the handler's generic text around the reason; and
    where the capability refuses the signature the reason is that
    refusal, the same result whether a model is configured or not. *)
Lemma recreation_without_lm_is_generic_failure :
  handle_execute_program Sample.world None Sample.bridge Sample.stateless_request =
    (JObj [("status", JStr "error");
           ("error",
            JStr ("Execute program failed: Failed to recreate program: No LM is loaded."
                  +:+ nl +:+ "Traceback: " +:+ Sample.traceback
                  +:+ nl +:+ "Traceback: " +:+ Sample.traceback))],
     Sample.bridge) /\
  handle_execute_program Sample.strict_world None Sample.bridge Sample.stateless_request =
    (JObj [("status", JStr "error");
           ("error",
            JStr ("Execute program failed: Failed to recreate program: invalid signature"
                  +:+ nl +:+ "Traceback: " +:+ Sample.traceback
                  +:+ nl +:+ "Traceback: " +:+ Sample.traceback))],
     Sample.bridge) /\
  handle_execute_program Sample.strict_world None Sample.bridge Sample.stateless_request =
  handle_execute_program Sample.strict_world (Some Sample.gemini) Sample.bridge
    Sample.stateless_request.
Proof. repeat split. Qed.

(** ** Further checks on the sample world *)

Example pack_I_big_endian :
  Struct.pack_I 258 = Some [x00; x00; x01; x02] /\
  Struct.unpack_I [x00; x00; x01; x02] = Some 258 /\
  Struct.pack_I (2 ^ 32) = None /\
  Struct.pack_I (-1) = None.
Proof. repeat split. Qed.

Example empty_payload_frame :
  Protocol.write_frame [] [] = Some [x00; x00; x00; x00] /\
  Protocol.read_frame [x00; x00; x00; x00] = (Some [], []) /\
  Protocol.read_message Sample.codec [x00; x00; x00; x00] = (JNull, []).
Proof. repeat split. Qed.

Example unknown_command_lists_the_table :
  Dispatch.process_command Sample.world Sample.table (JStr "shutdown") (JObj []) 0%nat =
  (inr (JObj [("status", JStr "error");
              ("error", JStr "Unknown command: shutdown");
              ("supported_commands",
               JArr [JStr "ping"; JStr "configure_lm"; JStr "create_program";
                     JStr "execute_program"; JStr "get_program";
                     JStr "list_programs"; JStr "delete_program";
                     JStr "clear_session"])]),
   0%nat).
Proof. reflexivity. Qed.

Example raising_handler_is_reported :
  Dispatch.process_command Sample.world Sample.table (JStr "get_program") (JArr []) 0%nat =
  (inr (JObj [("status", JStr "error");
              ("error",
               JStr "Command 'get_program' failed: 'list' object has no attribute 'get'")]),
   1%nat).
Proof. reflexivity. Qed.

Example one_request_one_response :
  Protocol.run Sample.codec Sample.world Sample.table (fun _ => 0)
    [x00; x00; x00; x02; x7b; x7d] [] 0%nat =
  Some {| Protocol.run_exit := Protocol.EndOfStream;
          Protocol.run_stdin := [];
          Protocol.run_stdout := [x00; x00; x00; x02; x7b; x7d];
          Protocol.run_state := 0%nat |}.
Proof. reflexivity. Qed.

Example fresh_registry_is_empty :
  list_programs new_manager =
    JObj [("status", JStr "ok"); ("programs", JArr []); ("count", JInt 0)] /\
  clear_session new_manager =
    (JObj [("status", JStr "ok");
           ("message", JStr "Cleared 0 programs");
           ("count", JInt 0)],
     new_manager).
Proof. split; reflexivity. Qed.

(** X2: deleting a program the registry holds reports [ok], after which
    the id is unknown to [get_program] and the registry holds one record
    fewer; deleting an unknown id fails and changes nothing. *)
Theorem delete_program_removes (self : DSPyProgramManager) (program_id : string) :
  match programs self !! program_id with
  | Some _ =>
      let '(result, self') := delete_program self program_id in
      status result = Some (JStr "ok") /\
      get_program self' program_id =
        error_result ("Program '" +:+ program_id +:+ "' not found") /\
      S (size (programs self')) = size (programs self)
  | None =>
      delete_program self program_id =
      (error_result ("Program '" +:+ program_id +:+ "' not found"), self)
  end.
Proof.
  unfold delete_program, get_program.
  destruct (programs self !! program_id) as [program_info|] eqn:Hl; [|reflexivity].
  simpl. rewrite lookup_delete_eq. repeat split.
  rewrite <- (insert_delete_id (programs self) program_id program_info Hl) at 2.
  symmetry. apply map_size_insert_None, lookup_delete_eq.
Qed.

(** ** More on the registry *)

Lemma create_program_cases E self program_id signature_def instructions program_type :
  let r := create_program E self program_id signature_def instructions program_type in
  (exists msg, r = (error_result msg, self)) \/
  (exists signature_class field_mapping program,
      build_signature E signature_def = inr (signature_class, field_mapping) /\
      dspy_Predict E signature_class = inr program /\
      program_type = "predict" /\
      r = (JObj [("status", JStr "ok");
                 ("program_id", JStr program_id);
                 ("signature_def", signature_def_json signature_def);
                 ("program_type", JStr program_type)],
           {| programs :=
               <[program_id :=
                   {| pi_program := program;
                      pi_signature_class := signature_class;
                      pi_field_mapping := field_mapping;
                      pi_signature_def := signature_def;
                      pi_instructions := instructions;
                      pi_program_type := program_type;
                      pi_created_at := time_time E;
                      pi_execution_count := 0 |}]> (programs self) |})).
Proof.
  intros r. subst r. unfold create_program.
  destruct (DSPY_AVAILABLE E); simpl; [|left; eauto].
  destruct (build_signature E signature_def)
    as [e|[signature_class field_mapping]] eqn:Hb; simpl; [left; eauto|].
  destruct (String.eqb_spec program_type "predict") as [->|]; simpl; [|left; eauto].
  destruct (dspy_Predict E signature_class) as [e|program] eqn:Hp; simpl;
    [left; eauto|].
  right. by exists signature_class, field_mapping, program.
Qed.

(** X4: a [create_program] that does not report [ok] reports an error
    and leaves the registry exactly as it was.  Without the capability
    the error is "DSPy is not available"; with it, a program type other
    than "predict" is refused by name once the signature has been built,
    and a signature the capability refuses is reported with the
    capability's own text. *)
Theorem create_program_failure (E : Env) (self : DSPyProgramManager)
    (program_id : string) (signature_def : SignatureDef)
    (instructions : option string) (program_type : string) :
  let '(result, self') :=
    create_program E self program_id signature_def instructions program_type in
  (status result = Some (JStr "ok") \/
   status result = Some (JStr "error") /\ self' = self) /\
  (DSPY_AVAILABLE E = false -> result = error_result "DSPy is not available") /\
  (forall built, build_signature E signature_def = inr built ->
     program_type <> "predict" ->
     result = error_result ("Unsupported program type: " +:+ program_type)) /\
  (forall e, DSPY_AVAILABLE E = true ->
     build_signature E signature_def = inl e ->
     result = error_result ("Failed to create program: " +:+ str_exn e)).
Proof.
  destruct (create_program E self program_id signature_def instructions program_type)
    as [result self'] eqn:Hc.
  split; [|split; [|split]].
  - destruct (create_program_cases E self program_id signature_def instructions
                program_type) as [[msg Hm]|(sg & fm & p & _ & _ & _ & Hm)];
      simpl in Hm; rewrite Hc in Hm; injection Hm as -> ->; auto.
  - intros Hav. unfold create_program in Hc. rewrite Hav in Hc. simpl in Hc.
    by injection Hc as <- _.
  - intros [sg fm] Hb Hty. unfold create_program in Hc.
    destruct (DSPY_AVAILABLE E) eqn:Hav; simpl in Hc.
    + rewrite Hb in Hc. simpl in Hc.
      destruct (String.eqb_spec program_type "predict"); [contradiction|].
      by injection Hc as <- _.
    + unfold build_signature in Hb. rewrite Hav in Hb. discriminate.
  - intros e Hav Hb. unfold create_program in Hc. rewrite Hav, Hb in Hc.
    simpl in Hc. by injection Hc as <- _.
Qed.

(** X5: no method of the registry called for one id changes the record
    held under another id. *)
Theorem other_programs_untouched (E : Env) (self : DSPyProgramManager)
    (program_id other : string) :
  other <> program_id ->
  (forall signature_def instructions program_type,
      programs (snd (create_program E self program_id signature_def instructions
                       program_type)) !! other = programs self !! other) /\
  (forall inputs,
      programs (snd (execute_program E self program_id inputs)) !! other =
      programs self !! other) /\
  programs (snd (delete_program self program_id)) !! other = programs self !! other.
Proof.
  intros Hne. split; [|split].
  - intros signature_def instructions program_type.
    destruct (create_program_cases E self program_id signature_def instructions
                program_type) as [[msg Hm]|(sg & fm & p & _ & _ & _ & Hm)];
      simpl in Hm; rewrite Hm; simpl; [reflexivity|].
    by apply lookup_insert_ne.
  - intros inputs.
    pose proof (execute_program_cases E self program_id inputs) as Hc.
    destruct (programs self !! program_id) as [program_info|];
      [|by rewrite Hc].
    destruct (call E (pi_program program_info) inputs); rewrite Hc; simpl;
      [reflexivity|].
    by apply lookup_insert_ne.
  - unfold delete_program.
    destruct (programs self !! program_id); simpl; [|reflexivity].
    by apply lookup_delete_ne.
Qed.

Lemma other_programs_untouched_witness :
  let created :=
    snd (create_program Sample.world new_manager "p1" Sample.question_answer
           None "predict") in
  programs (snd (create_program Sample.world created "p2"
                   Sample.question_answer_reason None "predict")) !! "p1" =
  programs created !! "p1".
Proof.
  intros created.
  destruct (other_programs_untouched Sample.world created "p2" "p1") as (Hc & _ & _);
    [discriminate|].
  apply Hc.
Defined.

(** X6: what [create_program] stored is what [get_program] reports under
    the same id: the signature definition, the instructions, the type,
    the time of creation, and an execution count of 0. *)
Theorem get_program_after_create (E : Env) (self self' : DSPyProgramManager)
    (program_id : string) (signature_def : SignatureDef)
    (instructions : option string) (program_type : string) (result : json) :
  create_program E self program_id signature_def instructions program_type
    = (result, self') ->
  status result = Some (JStr "ok") ->
  get_program self' program_id =
  JObj [("status", JStr "ok");
        ("program_id", JStr program_id);
        ("signature_def", signature_def_json signature_def);
        ("instructions", instructions_json instructions);
        ("program_type", JStr "predict");
        ("created_at", JFloat (time_time E));
        ("execution_count", JInt 0)].
Proof.
  intros Hc Hok.
  destruct (create_program_cases E self program_id signature_def instructions
              program_type) as [[msg Hm]|(sg & fm & p & _ & _ & -> & Hm)];
    simpl in Hm; rewrite Hc in Hm; injection Hm as -> ->; [discriminate|].
  unfold get_program. simpl. by rewrite lookup_insert_eq.
Qed.

Lemma get_program_after_create_witness :
  get_program
    (snd (create_program Sample.world new_manager "p1" Sample.question_answer
            (Some "Answer briefly.") "predict")) "p1" =
  JObj [("status", JStr "ok");
        ("program_id", JStr "p1");
        ("signature_def", signature_def_json Sample.question_answer);
        ("instructions", JStr "Answer briefly.");
        ("program_type", JStr "predict");
        ("created_at", JFloat 1700000000);
        ("execution_count", JInt 0)].
Proof.
  apply (get_program_after_create Sample.world new_manager _ "p1"
           Sample.question_answer (Some "Answer briefly.") "predict"
           (fst (create_program Sample.world new_manager "p1" Sample.question_answer
                   (Some "Answer briefly.") "predict")));
    reflexivity.
Defined.

Lemma execute_program_counts E self program_id inputs program_info result :
  programs self !! program_id = Some program_info ->
  call E (pi_program program_info) inputs = inr result ->
  programs (snd (execute_program E self program_id inputs)) !! program_id
    = Some (count_execution program_info).
Proof.
  intros Hl Hcall.
  pose proof (execute_program_cases E self program_id inputs) as Hc.
  rewrite Hl, Hcall in Hc. rewrite Hc. simpl. apply lookup_insert_eq.
Qed.

(** X7: [k] executes of a program whose call succeeds raise the count
    [get_program] reports by exactly [k]. *)
Theorem executes_are_counted (E : Env) (self : DSPyProgramManager)
    (program_id : string) (inputs : Dict.t json)
    (program_info : ProgramInfo) (result : Prediction) (k : nat) :
  programs self !! program_id = Some program_info ->
  call E (pi_program program_info) inputs = inr result ->
  let final :=
    Nat.iter k (fun m => snd (execute_program E m program_id inputs)) self in
  field "execution_count" (get_program final program_id)
    = Some (JInt (pi_execution_count program_info + Z.of_nat k)).
Proof.
  intros Hl Hcall final.
  assert (Hk : exists info,
             programs final !! program_id = Some info /\
             pi_program info = pi_program program_info /\
             pi_execution_count info = pi_execution_count program_info + Z.of_nat k).
  { subst final. induction k as [|k (info & Hi & Hp & Hn)]; simpl.
    - exists program_info. repeat split; [assumption|lia].
    - exists (count_execution info). split; [|split].
      + apply (execute_program_counts _ _ _ _ _ result Hi). by rewrite Hp.
      + exact Hp.
      + simpl. lia. }
  destruct Hk as (info & Hi & _ & Hn).
  unfold get_program. rewrite Hi. simpl. by rewrite Hn.
Qed.

Lemma executes_are_counted_witness :
  let created :=
    snd (create_program Sample.world new_manager "p1" Sample.question_answer
           None "predict") in
  field "execution_count"
    (get_program
       (Nat.iter 3 (fun m => snd (execute_program Sample.world m "p1" Sample.inputs))
          created) "p1") = Some (JInt 3).
Proof.
  intros created.
  exact (executes_are_counted Sample.world created "p1" Sample.inputs
           Sample.stored Sample.answer 3 eq_refl eq_refl).
Defined.

(** ** The signature builder *)

Lemma dict_keys_set {V} (k : string) (v : V) (d : Dict.t V) (k' : string) :
  In k' (Dict.keys (Dict.set k v d)) <-> k' = k \/ In k' (Dict.keys d).
Proof.
  induction d as [|[k0 v0] d IH]; simpl.
  - intuition.
  - destruct (String.eqb_spec k k0) as [->|Hne]; simpl.
    + intuition.
    + rewrite IH. intuition.
Qed.

(** Assigning to a key keeps the keys of a dictionary distinct. *)
Lemma dict_set_NoDup {V} (k : string) (v : V) (d : Dict.t V) :
  List.NoDup (Dict.keys d) -> List.NoDup (Dict.keys (Dict.set k v d)).
Proof.
  induction d as [|[k0 v0] d IH]; simpl; intros Hnd.
  - constructor; [intros []|constructor].
  - inversion Hnd as [|? ? Hnot Hrest]; subst.
    destruct (String.eqb_spec k k0) as [->|Hne]; simpl.
    + by constructor.
    + constructor; [|by apply IH].
      intros Hin. apply dict_keys_set in Hin as [?|?]; [congruence|contradiction].
Qed.

Lemma field_mapping_fold fields (acc : Dict.t string) :
  let fm :=
    fold_left (fun fm field => Dict.set (field_name field) (field_name field) fm)
      fields acc in
  (List.NoDup (Dict.keys acc) -> List.NoDup (Dict.keys fm)) /\
  forall name,
    Dict.get name fm =
    if is_declared_output fields name then Some name else Dict.get name acc.
Proof.
  revert acc. induction fields as [|f fields IH]; intros acc; simpl; [by split|].
  destruct (IH (Dict.set (field_name f) (field_name f) acc)) as [Hnd Hget].
  split.
  - intros Hacc. by apply Hnd, dict_set_NoDup.
  - intros name. rewrite Hget.
    destruct (String.eqb_spec (field_name f) name) as [<-|Hne]; simpl.
    + destruct (is_declared_output fields (field_name f)); [reflexivity|].
      apply dict_get_set_eq.
    + destruct (is_declared_output fields name); [reflexivity|].
      by apply dict_get_set_ne.
Qed.

Lemma build_signature_inr E signature_def signature_class field_mapping :
  build_signature E signature_def = inr (signature_class, field_mapping) ->
  let inputs := default [] (sd_inputs signature_def) in
  let outputs := default [] (sd_outputs signature_def) in
  DSPY_AVAILABLE E = true /\
  dspy_Signature E
    (join ", " (map field_name inputs) +:+ " -> " +:+ join ", " (map field_name outputs))
    = inr signature_class /\
  field_mapping =
    fold_left (fun fm field => Dict.set (field_name field) (field_name field) fm)
      (inputs ++ outputs) [].
Proof.
  unfold build_signature. destruct (DSPY_AVAILABLE E); simpl; [|discriminate].
  destruct (dspy_Signature E _) as [e|sg] eqn:Hs; simpl; [discriminate|].
  by intros [= <- <-].
Qed.

(** X8: the field mapping [build_signature] returns has one entry for
    each distinct field name of the definition, inputs and outputs
    alike, and maps every name to itself; nothing else is in it. *)
Theorem build_signature_field_mapping (E : Env) (signature_def : SignatureDef)
    (signature_class : Signature) (field_mapping : Dict.t string) :
  build_signature E signature_def = inr (signature_class, field_mapping) ->
  let fields :=
    default [] (sd_inputs signature_def) ++ default [] (sd_outputs signature_def) in
  List.NoDup (Dict.keys field_mapping) /\
  (forall name, In name (Dict.keys field_mapping) <-> In name (map field_name fields)) /\
  forall name original,
    Dict.get name field_mapping = Some original -> original = name.
Proof.
  intros Hb fields.
  destruct (build_signature_inr _ _ _ _ Hb) as (_ & _ & ->).
  destruct (field_mapping_fold fields []) as [Hnd Hget]. fold fields.
  split; [apply Hnd; constructor|]. split.
  - intros name. rewrite <- dict_get_keys, Hget. unfold is_declared_output.
    destruct (existsb _ fields) eqn:Hex.
    + apply existsb_exists in Hex as (f & Hin & Heq).
      apply String.eqb_eq in Heq as <-. split; [|eauto].
      intros _. apply in_map_iff. eauto.
    + split; [intros [? [=]]|].
      intros Hin. apply in_map_iff in Hin as (f & <- & Hin).
      assert (existsb (fun field => String.eqb (field_name field) (field_name f)) fields
              = true) as Habs
        by (apply existsb_exists; exists f; split; [assumption|apply String.eqb_refl]).
      congruence.
  - intros name original. rewrite Hget.
    destruct (is_declared_output fields name); [congruence|discriminate].
Qed.

Lemma build_signature_field_mapping_witness :
  Dict.keys
    (snd (match build_signature Sample.world Sample.question_answer_reason with
          | inr built => built
          | inl _ => ({| signature_string := "" |}, [])
          end)) = ["question"; "answer"; "reason"] /\
  List.NoDup ["question"; "answer"; "reason"].
Proof.
  destruct (build_signature_field_mapping Sample.world Sample.question_answer_reason
              {| signature_string := "question -> answer, reason" |}
              [("question", "question"); ("answer", "answer"); ("reason", "reason")]
              eq_refl) as (Hnd & _ & _).
  split; [reflexivity|exact Hnd].
Defined.

(** ** Invariants of the registry *)

Lemma registry_step_cases self self' :
  registry_step self self' ->
  self' = self \/
  programs self' = ∅ \/
  (exists program_id, programs self' = delete program_id (programs self)) \/
  (exists program_id program_info,
      programs self !! program_id = Some program_info /\
      programs self' = <[program_id := count_execution program_info]> (programs self)) \/
  (exists E program_id signature_def instructions signature_class field_mapping program,
      build_signature E signature_def = inr (signature_class, field_mapping) /\
      programs self' =
        <[program_id :=
            {| pi_program := program;
               pi_signature_class := signature_class;
               pi_field_mapping := field_mapping;
               pi_signature_def := signature_def;
               pi_instructions := instructions;
               pi_program_type := "predict";
               pi_created_at := time_time E;
               pi_execution_count := 0 |}]> (programs self)).
Proof.
  intros [E s program_id signature_def instructions program_type
         |E s program_id inputs|s program_id|s].
  - destruct (create_program_cases E s program_id signature_def instructions
                program_type) as [[msg Hm]|(sg & fm & p & Hb & _ & -> & Hm)];
      simpl in Hm; rewrite Hm; simpl; [by left|].
    do 4 right. by exists E, program_id, signature_def, instructions, sg, fm, p.
  - pose proof (execute_program_cases E s program_id inputs) as Hc.
    destruct (programs s !! program_id) as [program_info|] eqn:Hl;
      [|rewrite Hc; by left].
    destruct (call E (pi_program program_info) inputs); rewrite Hc; simpl;
      [by left|].
    do 3 right. left. by exists program_id, program_info.
  - unfold delete_program.
    destruct (programs s !! program_id); simpl; [|by left].
    do 2 right. left. by exists program_id.
  - right. by left.
Qed.

(** X9: in every registry that calls of the manager's methods can lead
    to, each record has the type "predict", an execution count that is
    not negative, and a field mapping that takes each field name of the
    record's own signature definition to itself and holds nothing else. *)
Theorem reachable_records_well_formed (self : DSPyProgramManager)
    (program_id : string) (program_info : ProgramInfo) :
  reachable self ->
  programs self !! program_id = Some program_info ->
  pi_program_type program_info = "predict" /\
  0 <= pi_execution_count program_info /\
  forall name,
    Dict.get name (pi_field_mapping program_info) =
    if is_declared_output
         (default [] (sd_inputs (pi_signature_def program_info)) ++
          default [] (sd_outputs (pi_signature_def program_info))) name
    then Some name else None.
Proof.
  unfold reachable. intros Hreach. revert program_id program_info.
  pattern self. eapply rtc_ind_r; [| |exact Hreach]; clear self Hreach.
  { intros program_id program_info Hl. simpl in Hl. by rewrite lookup_empty in Hl. }
  intros mid self' Hmid Hstep IH program_id program_info Hl.
  destruct (registry_step_cases _ _ Hstep)
    as [->|[He|[[pid Hd]|[(pid & info & Hi & Hx)
        |(E & pid & sd & instr & sg & fm & p & Hb & Hc)]]]].
  - by apply (IH program_id).
  - by rewrite He, lookup_empty in Hl.
  - rewrite Hd in Hl. apply lookup_delete_Some in Hl as [_ Hl]. by apply (IH program_id).
  - rewrite Hx in Hl. apply lookup_insert_Some in Hl as [[<- <-]|[_ Hl]].
    + destruct (IH pid info Hi) as (Hty & Hn & Hfm). simpl.
      repeat split; [assumption|lia|exact Hfm].
    + by apply (IH program_id).
  - rewrite Hc in Hl. apply lookup_insert_Some in Hl as [[<- <-]|[_ Hl]].
    + simpl. repeat split; [lia|].
      destruct (build_signature_inr _ _ _ _ Hb) as (_ & _ & ->).
      intros name. by rewrite (proj2 (field_mapping_fold _ [])).
    + by apply (IH program_id).
Qed.

Lemma reachable_records_well_formed_witness :
  let created :=
    snd (create_program Sample.world new_manager "p1" Sample.question_answer
           None "predict") in
  let executed := snd (execute_program Sample.world created "p1" Sample.inputs) in
  0 <= pi_execution_count (count_execution Sample.stored) /\
  Dict.get "answer" (pi_field_mapping (count_execution Sample.stored)) = Some "answer".
Proof.
  intros created executed.
  assert (Hreach : reachable executed).
  { eapply rtc_l; [apply (step_create Sample.world new_manager "p1"
                            Sample.question_answer None "predict")|].
    eapply rtc_l; [apply (step_execute Sample.world created "p1" Sample.inputs)|].
    apply rtc_refl. }
  destruct (reachable_records_well_formed executed "p1"
              (count_execution Sample.stored) Hreach eq_refl) as (_ & Hn & Hfm).
  split; [exact Hn|exact (Hfm "answer")].
Defined.

(** X10: [list_programs] reports one entry for each record of the
    registry and no other, each with the record's id, type, time of
    creation and execution count, and a count equal to their number. *)
Theorem list_programs_lists_registry (self : DSPyProgramManager) :
  let entry program_id program_info :=
    JObj [("program_id", JStr program_id);
          ("program_type", JStr (pi_program_type program_info));
          ("created_at", JFloat (pi_created_at program_info));
          ("execution_count", JInt (pi_execution_count program_info))] in
  exists entries,
    list_programs self =
      JObj [("status", JStr "ok");
            ("programs", JArr entries);
            ("count", JInt (Z.of_nat (length entries)))] /\
    length entries = size (programs self) /\
    (forall program_id program_info,
        programs self !! program_id = Some program_info ->
        In (entry program_id program_info) entries) /\
    (forall e, In e entries ->
        exists program_id program_info,
          programs self !! program_id = Some program_info /\
          e = entry program_id program_info).
Proof.
  intros entry. eexists. split; [reflexivity|]. split; [|split].
  - by rewrite length_map, length_map_to_list.
  - intros program_id program_info Hl.
    apply in_map_iff. exists (program_id, program_info). split; [reflexivity|].
    apply list_elem_of_In. by apply elem_of_map_to_list.
  - intros e Hin. apply in_map_iff in Hin as ([program_id program_info] & <- & Hin).
    exists program_id, program_info. split; [|reflexivity].
    apply elem_of_map_to_list. by apply list_elem_of_In.
Qed.

(** X1: [clear_session] reports how many records the registry held and
    leaves it empty: [list_programs] then counts 0 and [get_program]
    knows no id. *)
Theorem clear_session_empties (self : DSPyProgramManager) :
  let '(result, self') := clear_session self in
  status result = Some (JStr "ok") /\
  field "count" result = Some (JInt (Z.of_nat (size (programs self)))) /\
  list_programs self' =
    JObj [("status", JStr "ok"); ("programs", JArr []); ("count", JInt 0)] /\
  forall program_id,
    get_program self' program_id =
    error_result ("Program '" +:+ program_id +:+ "' not found").
Proof.
  unfold clear_session. repeat split.
Qed.

(** ** More on the recreation path *)

(** X11: an execute that carries a snapshot is stateless: whatever the
    snapshot, the inputs and the outcome, the bridge and its registry
    are left exactly as they were, also when the registry holds a
    program under the same id. *)
Theorem stateless_execution_leaves_bridge (E : Env) (lm : option LM)
    (self : DSPyBridge) (args : ExecuteArgs) (program_data : ProgramData) :
  ea_program_data args = Some program_data ->
  snd (handle_execute_program E lm self args) = self.
Proof.
  intros Hdata. unfold handle_execute_program. rewrite Hdata.
  destruct (missing_id (ea_program_id args)); simpl; [reflexivity|].
  by destruct (_recreate_program_from_data E lm program_data).
Qed.

Lemma stateless_execution_leaves_bridge_witness :
  let holding :=
    {| start_time := 1700000000;
       request_count := 0;
       program_manager :=
         snd (create_program Sample.world new_manager "p1" Sample.question_answer
                None "predict") |} in
  snd (handle_execute_program Sample.world (Some Sample.gemini) holding
         Sample.stateless_request) = holding /\
  field "execution_count" (get_program (program_manager holding) "p1")
    = Some (JInt 0).
Proof.
  intros holding. split; [|reflexivity].
  by apply (stateless_execution_leaves_bridge Sample.world (Some Sample.gemini)
              holding Sample.stateless_request Sample.snapshot).
Defined.

Lemma dict_set_fresh {V} (k : string) (v : V) (d : Dict.t V) :
  ~ In k (Dict.keys d) -> Dict.set k v d = d ++ [(k, v)].
Proof.
  induction d as [|[k0 v0] d IH]; simpl; intros Hnot; [reflexivity|].
  destruct (String.eqb_spec k k0) as [->|Hne]; [tauto|].
  rewrite IH; [reflexivity|tauto].
Qed.

Lemma convert_inputs_fold field_mapping (inputs acc : Dict.t json) :
  (forall k v, Dict.get k field_mapping = Some v -> v = k) ->
  List.NoDup (Dict.keys (acc ++ inputs)) ->
  fold_left
    (fun dspy_inputs '(key, value) =>
       Dict.set (default key (Dict.get key field_mapping)) value dspy_inputs)
    inputs acc = acc ++ inputs.
Proof.
  intros Hid. revert acc.
  induction inputs as [|[k v] inputs IH]; intros acc Hnd; simpl.
  - by rewrite app_nil_r.
  - assert (Hk : default k (Dict.get k field_mapping) = k).
    { destruct (Dict.get k field_mapping) as [v'|] eqn:Hg; simpl; [|reflexivity].
      by apply Hid in Hg. }
    rewrite Hk. unfold Dict.keys in Hnd. rewrite map_app in Hnd. simpl in Hnd.
    rewrite dict_set_fresh.
    + rewrite IH; [by rewrite <- app_assoc|].
      unfold Dict.keys. by rewrite <- app_assoc, map_app.
    + apply NoDup_remove_2 in Hnd. intros Hin. apply Hnd.
      apply in_or_app. by left.
Qed.

(** X12: with the field mapping [build_signature] returns, the inputs
    of a stateless execute reach the program as they were given: same
    names, same values, same order. *)
Theorem inputs_pass_unchanged (E : Env) (signature_def : SignatureDef)
    (signature_class : Signature) (field_mapping : Dict.t string)
    (inputs : Dict.t json) :
  build_signature E signature_def = inr (signature_class, field_mapping) ->
  List.NoDup (Dict.keys inputs) ->
  convert_inputs field_mapping inputs = inputs.
Proof.
  intros Hb Hnd. unfold convert_inputs.
  destruct (build_signature_inr _ _ _ _ Hb) as (_ & _ & ->).
  apply (convert_inputs_fold _ inputs []); [|exact Hnd].
  intros k v. rewrite (proj2 (field_mapping_fold _ [])).
  destruct (is_declared_output _ k); [congruence|discriminate].
Qed.

Lemma inputs_pass_unchanged_witness :
  convert_inputs [("question", "question"); ("answer", "answer")]
    [("question", JStr "2+2?"); ("context", JStr "arithmetic")] =
  [("question", JStr "2+2?"); ("context", JStr "arithmetic")].
Proof.
  apply (inputs_pass_unchanged Sample.world Sample.question_answer
           {| signature_string := "question -> answer" |}); [reflexivity|].
  repeat constructor; simpl; intuition discriminate.
Defined.

Lemma dict_get_values {V} (k : string) (v : V) (d : Dict.t V) :
  Dict.get k d = Some v -> In v (Dict.values d).
Proof.
  induction d as [|[k0 v0] d IH]; simpl; [discriminate|].
  destruct (String.eqb k k0); [intros [= ->]; by left|]. intros Hg. right. by apply IH.
Qed.

Lemma dict_get_nonempty {V} (k : string) (v : V) (d : Dict.t V) :
  Dict.get k d = Some v -> Dict.is_empty d = false.
Proof. by destruct d. Qed.

Lemma extract_by_mapping_fold E result expected_outputs
    (items : Dict.t string) (acc : Dict.t string) name :
  (forall o s, In (o, s) items -> s = o) ->
  Dict.get name
    (fold_left
       (fun outputs '(original_name, sanitized_name) =>
          if is_declared_output expected_outputs original_name then
            match getattr result sanitized_name with
            | Some v => Dict.set original_name (str E v) outputs
            | None => Dict.set original_name (not_found_text sanitized_name) outputs
            end
          else outputs)
       items acc) =
  if existsb (fun item => String.eqb (fst item) name) items
     && is_declared_output expected_outputs name
  then Some match getattr result name with
            | Some v => str E v
            | None => not_found_text name
            end
  else Dict.get name acc.
Proof.
  revert acc. induction items as [|[o s] items IH]; intros acc Hid; simpl;
    [reflexivity|].
  assert (s = o) as -> by (apply Hid; by left).
  rewrite IH by (intros o' s' Hin; apply Hid; by right). clear IH.
  destruct (existsb _ items && is_declared_output expected_outputs name) eqn:Hrest.
  - apply andb_prop in Hrest as [-> ->]. by rewrite orb_true_r.
  - destruct (String.eqb_spec o name) as [->|Hne]; simpl.
    + destruct (is_declared_output expected_outputs name) eqn:Hd.
      * destruct (getattr result name); apply dict_get_set_eq.
      * reflexivity.
    + rewrite Hrest.
      destruct (is_declared_output expected_outputs o); [|reflexivity].
      destruct (getattr result o); by apply dict_get_set_ne.
Qed.

Lemma dict_get_In {V} (k : string) (v : V) (d : Dict.t V) :
  Dict.get k d = Some v -> In (k, v) d.
Proof.
  induction d as [|[k0 v0] d IH]; simpl; [discriminate|].
  destruct (String.eqb_spec k k0) as [->|]; [intros [= ->]; by left|].
  intros Hg. right. by apply IH.
Qed.

Lemma dict_In_get {V} (k : string) (v : V) (d : Dict.t V) :
  List.NoDup (Dict.keys d) -> In (k, v) d -> Dict.get k d = Some v.
Proof.
  induction d as [|[k0 v0] d IH]; simpl; [tauto|].
  intros Hnd [[= -> ->]|Hin]; [by rewrite String.eqb_refl|].
  inversion Hnd as [|? ? Hnot Hrest]; subst.
  destruct (String.eqb_spec k k0) as [->|]; [|by apply IH].
  exfalso. apply Hnot. apply in_map_iff. by exists (k0, v).
Qed.

Lemma built_mapping_items E signature_def signature_class field_mapping :
  build_signature E signature_def = inr (signature_class, field_mapping) ->
  (forall o s, In (o, s) field_mapping -> s = o) /\
  (forall name,
      is_declared_output (default [] (sd_outputs signature_def)) name = true ->
      In (name, name) field_mapping).
Proof.
  intros Hb. destruct (build_signature_inr _ _ _ _ Hb) as (_ & _ & ->).
  set (fields := default [] (sd_inputs signature_def) ++
                 default [] (sd_outputs signature_def)).
  destruct (field_mapping_fold fields []) as [Hnd Hget]. cbn zeta in Hnd, Hget.
  split.
  - intros o s Hin. apply dict_In_get in Hin; [|apply Hnd; constructor].
    rewrite Hget in Hin. destruct (is_declared_output fields o); simpl in Hin; congruence.
  - intros name Hd. apply dict_get_In. rewrite Hget.
    assert (is_declared_output fields name = true) as ->; [|reflexivity].
    unfold is_declared_output, fields. rewrite existsb_app.
    unfold is_declared_output in Hd. rewrite Hd. apply orb_true_r.
Qed.

(** X13: in the recreation path, with the field mapping
    [build_signature] returns for the record's own definition, as soon
    as one declared output field comes out as a text without a pair of
    brackets, the result is [ok] and its outputs are exactly the
    declared output fields: each holds [str] of the result's attribute
    of that name, or the "not found" text where the result has none. *)
Theorem recreated_outputs (E E0 : Env) (program_info : RecreatedInfo)
    (inputs : Dict.t json) (result : Prediction) :
  build_signature E0 (ri_signature_def program_info)
    = inr (ri_signature_class program_info, ri_field_mapping program_info) ->
  call E (ri_program program_info)
    (convert_inputs (ri_field_mapping program_info) inputs) = inr result ->
  let expected_outputs := default [] (sd_outputs (ri_signature_def program_info)) in
  let text name :=
    match getattr result name with
    | Some v => str E v
    | None => not_found_text name
    end in
  (exists f, In f expected_outputs /\ bracketed (text (field_name f)) = false) ->
  exists outputs,
    _execute_with_program_info E program_info inputs =
      JObj [("status", JStr "ok");
            ("outputs", strings_json outputs);
            ("program_id", ri_program_id program_info);
            ("execution_time", JFloat (time_time E))] /\
    forall name,
      Dict.get name outputs =
      if is_declared_output expected_outputs name then Some (text name) else None.
Proof.
  intros Hb Hcall expected_outputs text (f & Hf & Hplain).
  set (fm := ri_field_mapping program_info) in *.
  set (first := extract_by_mapping E result fm expected_outputs []).
  destruct (built_mapping_items _ _ _ _ Hb) as (Hid & Hin). fold fm in Hid, Hin.
  assert (Hfirst : forall name,
             Dict.get name first =
             if is_declared_output expected_outputs name
             then Some (text name) else None).
  { intros name. subst first. unfold extract_by_mapping.
    destruct (Dict.is_empty fm) eqn:Hempty.
    - simpl.
      destruct (is_declared_output expected_outputs name) eqn:Hd; [|reflexivity].
      apply Hin in Hd. destruct fm; [destruct Hd|discriminate].
    - rewrite (extract_by_mapping_fold _ _ _ _ _ _ Hid).
      destruct (is_declared_output expected_outputs name) eqn:Hd;
        [|by rewrite andb_false_r].
      rewrite andb_true_r.
      assert (existsb (fun item => String.eqb (fst item) name) fm = true) as ->; [|done].
      apply existsb_exists. exists (name, name).
      split; [by apply Hin|apply String.eqb_refl]. }
  assert (Hf' : Dict.get (field_name f) first = Some (text (field_name f)))
    by (rewrite Hfirst; by rewrite (is_declared_output_In _ _ Hf)).
  assert (Hreal : no_real_outputs first = false).
  { unfold no_real_outputs. rewrite (dict_get_nonempty _ _ _ Hf'). simpl.
    apply not_true_is_false. intros Hall.
    rewrite forallb_forall in Hall.
    specialize (Hall _ (dict_get_values _ _ _ Hf')). congruence. }
  assert (Hextract : extract_outputs E result fm expected_outputs = first).
  { unfold extract_outputs. fold first. unfold extract_direct.
    rewrite (dict_get_nonempty _ _ _ Hf'). by rewrite Hreal. }
  exists first. split; [|exact Hfirst].
  unfold _execute_with_program_info. fold fm. rewrite Hcall. simpl.
  fold expected_outputs. rewrite Hextract. unfold provide_diagnostics.
  by rewrite Hreal.
Qed.

Lemma recreated_outputs_witness :
  _execute_with_program_info Sample.world Sample.recreated Sample.inputs =
  JObj [("status", JStr "ok");
        ("outputs", JObj [("answer", JStr "4")]);
        ("program_id", JStr "p1");
        ("execution_time", JFloat 1700000000)].
Proof.
  destruct (recreated_outputs Sample.world Sample.world Sample.recreated
              Sample.inputs Sample.answer eq_refl eq_refl) as (outputs & Hr & _).
  - exists {| field_name := "answer" |}. split; [by left|reflexivity].
  - reflexivity.
Defined.

(** ** The handlers of the bridge *)

(** X14: where the capability is not available, nothing that needs it
    gets anywhere, and nothing changes: [create_program] and
    [configure_lm] answer "DSPy is not available", an execute that
    carries a snapshot answers with the handler's error around "DSPy not
    available - cannot recreate programs"; the registry, the bridge and
    the globals are as before. *)
Theorem capability_unavailable (E : Env) (M : ModelProvider) :
  DSPY_AVAILABLE E = false ->
  (forall self program_id signature_def instructions program_type,
      create_program E self program_id signature_def instructions program_type =
      (error_result "DSPy is not available", self)) /\
  (forall globals args,
      handle_configure_lm E M globals args =
      (error_result "DSPy is not available", globals)) /\
  (forall lm self args program_data,
      missing_id (ea_program_id args) = false ->
      ea_program_data args = Some program_data ->
      handle_execute_program E lm self args =
      (error_result
         ("Execute program failed: DSPy not available - cannot recreate programs"
          +:+ nl +:+ "Traceback: " +:+
          format_exc E (RuntimeError "DSPy not available - cannot recreate programs")),
       self)).
Proof.
  intros Hav. split; [|split].
  - intros. unfold create_program. by rewrite Hav.
  - intros. unfold handle_configure_lm. by rewrite Hav.
  - intros lm self args program_data Hid Hdata.
    unfold handle_execute_program, _recreate_program_from_data.
    by rewrite Hid, Hdata, Hav.
Qed.



(** X16: [handle_create_program] checks its arguments before anything
    is built: without an id (missing or empty) it answers "Program ID is
    required", and with an id but without a signature (missing or an
    empty dictionary) "Signature is required"; either way the bridge is
    left as it was, and the capability is not consulted. *)
Theorem create_program_requires_arguments (E : Env) (self : DSPyBridge)
    (args : CreateArgs) :
  (missing_id (ca_id args) = true ->
   handle_create_program E self args =
   (error_result "Program ID is required", self)) /\
  (missing_id (ca_id args) = false ->
   missing_signature (ca_signature args) = true ->
   handle_create_program E self args =
   (error_result "Signature is required", self)).
Proof.
  unfold handle_create_program. split.
  - by intros ->.
  - by intros -> ->.
Qed.

Lemma create_program_requires_arguments_witness :
  handle_create_program Sample.world Sample.bridge
    {| ca_id := Some ""; ca_signature := Some Sample.question_answer;
       ca_instructions := None; ca_program_type := None |} =
    (error_result "Program ID is required", Sample.bridge) /\
  handle_create_program Sample.world Sample.bridge
    {| ca_id := Some "p1"; ca_signature := Some empty_signature_def;
       ca_instructions := None; ca_program_type := None |} =
    (error_result "Signature is required", Sample.bridge).
Proof.
  split.
  - by apply (proj1 (create_program_requires_arguments _ _ _)).
  - by apply (proj2 (create_program_requires_arguments _ _ _)).
Defined.

Lemma take_chars_prefix (n : nat) (s : string) :
  String.prefix (take_chars n s) s = true.
Proof.
  revert n. induction s as [|c s IH]; intros n; simpl; [reflexivity|].
  destruct (is_continuation c); [|destruct n as [|n]; [reflexivity|]]; simpl;
    (destruct (ascii_dec c c); [apply IH|congruence]).
Qed.

Lemma count_take_chars (n : nat) (s : string) :
  count_chars (take_chars n s) = Nat.min n (count_chars s).
Proof.
  revert n. induction s as [|c s IH]; intros n; simpl; [by rewrite Nat.min_0_r|].
  destruct (is_continuation c) eqn:Hc; simpl.
  - rewrite Hc. apply IH.
  - destruct n as [|n]; simpl; [reflexivity|]. rewrite Hc. by rewrite IH.
Qed.

Lemma count_chars_append (s1 s2 : string) :
  count_chars (s1 +:+ s2) = (count_chars s1 + count_chars s2)%nat.
Proof.
  induction s1 as [|c s1 IH]; simpl; [reflexivity|].
  destruct (is_continuation c); simpl; by rewrite IH.
Qed.

(** X17: [handle_configure_lm] either fails, and then the globals are
    exactly as before, or reports [ok]; it reports [ok] only for the
    provider "google" and a model whose name starts with "gemini", and
    only after the model was built, answered the test call and was
    installed in the capability.  Then [current_lm] is that model and
    [lm_config] keeps of the API key its first eight characters (the
    whole key where it has fewer) followed by "...": a text of at most
    eleven characters that starts as the key does. *)
Theorem configure_lm_outcomes (E : Env) (M : ModelProvider) (globals : Globals)
    (args : ConfigureArgs) :
  let '(result, globals') := handle_configure_lm E M globals args in
  (status result = Some (JStr "error") /\ globals' = globals) \/
  (status result = Some (JStr "ok") /\
   exists model api_key lm answer,
     cl_model args = Some model /\
     cl_api_key args = Some api_key /\
     default "google" (cl_provider args) = "google" /\
     String.prefix "gemini" model = true /\
     dspy_LM M ("gemini/" +:+ model) api_key = inr lm /\
     lm_call M lm "Hello, this is a test." = inr answer /\
     dspy_configure M lm = inr tt /\
     current_lm globals' = Some lm /\
     lm_type globals' = Some "gemini" /\
     Dict.get "model" (lm_config globals') = Some (JStr model) /\
     exists shown,
       Dict.get "api_key" (lm_config globals') = Some (JStr (shown +:+ "...")) /\
       shown = take_chars 8 api_key /\
       String.prefix shown api_key = true /\
       count_chars shown = Nat.min 8 (count_chars api_key) /\
       (count_chars (shown +:+ "...") <= 11)%nat).
Proof.
  unfold handle_configure_lm.
  destruct (DSPY_AVAILABLE E); simpl; [|by left].
  destruct (cl_model args) as [model|]; simpl; [|by left].
  destruct (String.eqb model ""); simpl; [by left|].
  destruct (cl_api_key args) as [api_key|]; simpl; [|by left].
  destruct (String.eqb api_key ""); simpl; [by left|].
  destruct (String.eqb_spec (default "google" (cl_provider args)) "google")
    as [Hp|]; simpl; [|by left].
  destruct (String.prefix "gemini" model) eqn:Hprefix; simpl; [|by left].
  destruct (dspy_LM M ("gemini/" +:+ model) api_key) as [e|lm] eqn:Hlm; simpl;
    [by left|].
  destruct (lm_call M lm "Hello, this is a test.") as [e|answer] eqn:Hcall; simpl;
    [by left|].
  destruct (dspy_configure M lm) as [e|[]] eqn:Hconf; simpl; [by left|].
  right. split; [reflexivity|].
  exists model, api_key, lm, answer. repeat split; try assumption.
  exists (take_chars 8 api_key).
  split; [reflexivity|]. split; [reflexivity|].
  split; [apply take_chars_prefix|]. split; [apply count_take_chars|].
  rewrite count_chars_append, count_take_chars.
  assert (count_chars "..." = 3%nat) as -> by reflexivity. lia.
Qed.

(** X18: the refusals of [handle_configure_lm] when the capability is
    available, each leaving the globals as they were: no model name, no
    API key, a provider or model that is not supported, and a model that
    cannot be built, each with its own error text. *)
Theorem configure_lm_refusals (E : Env) (M : ModelProvider) (globals : Globals)
    (args : ConfigureArgs) :
  DSPY_AVAILABLE E = true ->
  let provider := default "google" (cl_provider args) in
  (falsy (cl_model args) = true ->
   handle_configure_lm E M globals args =
   (error_result "Model name is required", globals)) /\
  (falsy (cl_model args) = false -> falsy (cl_api_key args) = true ->
   handle_configure_lm E M globals args =
   (error_result "API key is required", globals)) /\
  (forall model api_key,
      cl_model args = Some model -> model <> "" ->
      cl_api_key args = Some api_key -> api_key <> "" ->
      (provider <> "google" \/ String.prefix "gemini" model = false ->
       handle_configure_lm E M globals args =
       (error_result ("Unsupported provider/model: " +:+ provider +:+ "/" +:+ model),
        globals)) /\
      (forall e, provider = "google" -> String.prefix "gemini" model = true ->
         dspy_LM M ("gemini/" +:+ model) api_key = inl e ->
         handle_configure_lm E M globals args =
         (error_result ("LM configuration failed: " +:+ str_exn e), globals))).
Proof.
  intros Hav provider. unfold handle_configure_lm. rewrite Hav. simpl.
  split; [by intros ->|]. split; [by intros -> ->|].
  intros model api_key -> Hm -> Hk. simpl.
  destruct (String.eqb_spec model ""); [contradiction|].
  destruct (String.eqb_spec api_key ""); [contradiction|]. simpl.
  fold provider. split.
  - intros [Hp|Hp].
    + destruct (String.eqb_spec provider "google"); [contradiction|]. reflexivity.
    + rewrite Hp. by rewrite andb_false_r.
  - intros e -> -> Hlm. simpl. by rewrite Hlm.
Qed.

Lemma configure_lm_refusals_witness :
  handle_configure_lm Sample.world Sample.provider initial_globals
    {| cl_model := Some "gpt-4"; cl_api_key := Some "sk-0123456789";
       cl_provider := Some "openai" |} =
  (error_result "Unsupported provider/model: openai/gpt-4", initial_globals).
Proof.
  destruct (configure_lm_refusals Sample.world Sample.provider initial_globals
              {| cl_model := Some "gpt-4"; cl_api_key := Some "sk-0123456789";
                 cl_provider := Some "openai" |} eq_refl) as (_ & _ & Hrest).
  destruct (Hrest "gpt-4" "sk-0123456789" eq_refl ltac:(discriminate)
              eq_refl ltac:(discriminate)) as [Hunsupported _].
  apply Hunsupported. left. discriminate.
Defined.

Example configured_key_is_truncated :
  handle_configure_lm Sample.world Sample.provider initial_globals
    {| cl_model := Some "gemini-1.5-flash";
       cl_api_key := Some "AIzaSyD-0123456789abcdef";
       cl_provider := None |} =
  (JObj [("status", JStr "ok");
         ("message", JStr "Configured gemini-1.5-flash language model");
         ("model", JStr "gemini-1.5-flash");
         ("provider", JStr "google")],
   {| current_lm := Some {| lm_model := "gemini/gemini-1.5-flash" |};
      lm_type := Some "gemini";
      lm_config := [("model", JStr "gemini-1.5-flash");
                    ("api_key", JStr "AIzaSyD-...");
                    ("provider", JStr "google")] |}).
Proof. reflexivity. Qed.

Example key_is_cut_on_characters :
  take_chars 8 "ééééééééé" = "éééééééé" /\
  count_chars "ééééééééé" = 9%nat /\
  String.length "ééééééééé" = 18%nat /\
  take_chars 8 "short" = "short" /\
  fst (handle_configure_lm Sample.world Sample.provider initial_globals
         {| cl_model := Some "gemini-pro"; cl_api_key := Some "ééééééééé";
            cl_provider := Some "google" |}) =
  JObj [("status", JStr "ok");
        ("message", JStr "Configured gemini-pro language model");
        ("model", JStr "gemini-pro");
        ("provider", JStr "google")] /\
  Dict.get "api_key"
    (lm_config
       (snd (handle_configure_lm Sample.world Sample.provider initial_globals
               {| cl_model := Some "gemini-pro"; cl_api_key := Some "ééééééééé";
                  cl_provider := Some "google" |}))) =
  Some (JStr "éééééééé...").
Proof. repeat split. Qed.

Lemma configure_lm_current E M globals args :
  let '(result, globals') := handle_configure_lm E M globals args in
  status result = Some (JStr "ok") -> exists lm, current_lm globals' = Some lm.
Proof.
  unfold handle_configure_lm.
  destruct (DSPY_AVAILABLE E); simpl; [|discriminate].
  destruct (falsy (cl_model args)); simpl; [discriminate|].
  destruct (falsy (cl_api_key args)); simpl; [discriminate|].
  destruct (_ && _); simpl; [|discriminate].
  destruct (dspy_LM M _ _) as [e|lm]; simpl; [discriminate|].
  destruct (lm_call M lm _) as [e|answer]; simpl; [discriminate|].
  destruct (dspy_configure M lm) as [e|[]]; simpl; [discriminate|].
  eauto.
Qed.

(** X19: once [handle_configure_lm] has reported [ok], an execute that
    carries a snapshot gets as far as the program: where the capability
    builds the signature and the program, the answer is that of
    [_execute_with_program_info] on the record rebuilt from the
    snapshot, whose execution count is the snapshot's, or 0 where the
    snapshot has none. *)
Theorem configured_recreation_executes (E E' : Env) (M : ModelProvider)
    (globals globals' : Globals) (configure : ConfigureArgs) (configured : json)
    (self : DSPyBridge) (args : ExecuteArgs) (program_data : ProgramData)
    (signature_class : Signature) (field_mapping : Dict.t string) (program : Predict) :
  handle_configure_lm E M globals configure = (configured, globals') ->
  status configured = Some (JStr "ok") ->
  missing_id (ea_program_id args) = false ->
  ea_program_data args = Some program_data ->
  let signature_def := default empty_signature_def (pd_signature_def program_data) in
  build_signature E' signature_def = inr (signature_class, field_mapping) ->
  dspy_Predict E' signature_class = inr program ->
  handle_execute_program E' (current_lm globals') self args =
  (_execute_with_program_info E'
     {| ri_program := program;
        ri_signature_class := signature_class;
        ri_field_mapping := field_mapping;
        ri_signature_def := signature_def;
        ri_program_id := default JNull (pd_program_id program_data);
        ri_created_at := default JNull (pd_created_at program_data);
        ri_execution_count := default (JInt 0) (pd_execution_count program_data);
        ri_last_executed := default JNull (pd_last_executed program_data) |}
     (default [] (ea_inputs args)),
   self).
Proof.
  intros Hconf Hok Hid Hdata signature_def Hb Hp.
  pose proof (configure_lm_current E M globals configure) as Hcur.
  rewrite Hconf in Hcur. destruct (Hcur Hok) as [lm Hlm].
  unfold handle_execute_program. rewrite Hid, Hdata. simpl.
  unfold _recreate_program_from_data.
  destruct (build_signature_inr _ _ _ _ Hb) as (Hav & _ & _). rewrite Hav. simpl.
  fold signature_def. rewrite Hb. simpl. rewrite Hlm, Hp. reflexivity.
Qed.

Lemma configured_recreation_executes_witness :
  let globals' :=
    snd (handle_configure_lm Sample.world Sample.provider initial_globals
           Sample.configure) in
  fst (handle_execute_program Sample.world (current_lm globals') Sample.bridge
         Sample.stateless_request) =
  JObj [("status", JStr "ok");
        ("outputs", JObj [("answer", JStr "4")]);
        ("program_id", JStr "p1");
        ("execution_time", JFloat 1700000000)].
Proof.
  intros globals'.
  rewrite (configured_recreation_executes Sample.world Sample.world Sample.provider
             initial_globals globals' Sample.configure
             (fst (handle_configure_lm Sample.world Sample.provider initial_globals
                     Sample.configure))
             Sample.bridge Sample.stateless_request Sample.snapshot
             {| signature_string := "question -> answer" |}
             [("question", "question"); ("answer", "answer")]
             {| predict_signature := {| signature_string := "question -> answer" |} |}
             eq_refl eq_refl eq_refl eq_refl eq_refl eq_refl).
  reflexivity.
Defined.

(** X20: [request_count] counts pings and nothing else: [handle_ping]
    raises it by one and touches neither the registry nor the start
    time, while creating and executing programs leave it as it is. *)
Theorem request_count_counts_pings (E : Env) (P : Host) (lm : option LM)
    (self : DSPyBridge) :
  (forall args,
      let self' := snd (handle_ping E P self args) in
      request_count self' = request_count self + 1 /\
      program_manager self' = program_manager self /\
      start_time self' = start_time self) /\
  (forall args,
      let self' := snd (handle_create_program E self args) in
      request_count self' = request_count self /\ start_time self' = start_time self) /\
  (forall args,
      let self' := snd (handle_execute_program E lm self args) in
      request_count self' = request_count self /\ start_time self' = start_time self).
Proof.
  split; [|split]; intros args; simpl.
  - repeat split.
  - unfold handle_create_program.
    destruct (missing_id _); simpl; [by split|].
    destruct (missing_signature _); simpl; [by split|].
    by destruct (create_program _ _ _ _ _ _).
  - unfold handle_execute_program.
    destruct (missing_id _); simpl; [by split|].
    destruct (ea_program_data args) as [program_data|]; simpl.
    + by destruct (_recreate_program_from_data E lm program_data).
    + by destruct (execute_program _ _ _ _).
Qed.

(** ** More on the frame *)

Lemma byte_of_to_Z b : Struct.byte_of_Z (Struct.byte_to_Z b) = b.
Proof.
  unfold Struct.byte_of_Z, Struct.byte_to_Z. by rewrite N2Z.id, Byte.of_to_N.
Qed.

Lemma testbit_byte_high b j : 0 <= b < 256 -> 8 <= j -> Z.testbit b j = false.
Proof.
  intros Hb Hj. destruct (Z.eq_dec b 0) as [->|]; [apply Z.bits_0|].
  apply Z.bits_above_log2; [lia|].
  apply Z.lt_le_trans with 8; [|lia]. apply Z.log2_lt_pow2; lia.
Qed.

Lemma testbit_octets b0 b1 b2 b3 j :
  0 <= b0 < 256 -> 0 <= b1 < 256 -> 0 <= b2 < 256 -> 0 <= b3 < 256 -> 0 <= j ->
  Z.testbit
    (Z.lor (Z.shiftl b0 24) (Z.lor (Z.shiftl b1 16) (Z.lor (Z.shiftl b2 8) b3))) j =
  if j <? 8 then Z.testbit b3 j
  else if j <? 16 then Z.testbit b2 (j - 8)
  else if j <? 24 then Z.testbit b1 (j - 16)
  else Z.testbit b0 (j - 24).
Proof.
  intros H0 H1 H2 H3 Hj.
  rewrite !Z.lor_spec, !Z.shiftl_spec by lia.
  destruct (Z.ltb_spec j 8); [|destruct (Z.ltb_spec j 16); [|destruct (Z.ltb_spec j 24)]].
  - rewrite !(Z.testbit_neg_r _ (j - _)) by lia. reflexivity.
  - rewrite !(Z.testbit_neg_r _ (j - 24)), !(Z.testbit_neg_r _ (j - 16)) by lia.
    rewrite (testbit_byte_high b3 j) by lia. by rewrite orb_false_r.
  - rewrite (Z.testbit_neg_r _ (j - 24)) by lia.
    rewrite (testbit_byte_high b3 j), (testbit_byte_high b2 (j - 8)) by lia.
    by rewrite !orb_false_r.
  - rewrite (testbit_byte_high b3 j), (testbit_byte_high b2 (j - 8)),
      (testbit_byte_high b1 (j - 16)) by lia.
    by rewrite !orb_false_r.
Qed.

Lemma octet_of_octets b0 b1 b2 b3 k b :
  0 <= b0 < 256 -> 0 <= b1 < 256 -> 0 <= b2 < 256 -> 0 <= b3 < 256 ->
  (k = 0 /\ b = b3 \/ k = 8 /\ b = b2 \/ k = 16 /\ b = b1 \/ k = 24 /\ b = b0) ->
  Z.land
    (Z.shiftr
       (Z.lor (Z.shiftl b0 24) (Z.lor (Z.shiftl b1 16) (Z.lor (Z.shiftl b2 8) b3))) k)
    255 = b.
Proof.
  intros H0 H1 H2 H3 Hk.
  assert (Hb : 0 <= b < 256) by (destruct Hk as [[_ ->]|[[_ ->]|[[_ ->]|[_ ->]]]]; lia).
  apply Z.bits_inj'. intros i Hi.
  rewrite testbit_low_octet by lia.
  destruct (Z.ltb_spec i 8); [|symmetry; by apply testbit_byte_high].
  rewrite Z.shiftr_spec, testbit_octets by lia.
  destruct Hk as [[-> ->]|[[-> ->]|[[-> ->]|[-> ->]]]];
    repeat match goal with
           | |- context [?a <? ?c] => destruct (Z.ltb_spec a c); try lia
           end; f_equal; lia.
Qed.

(** X21: every four bytes are the header of exactly one length: the
    number [unpack_I] reads off them is below 2^32 and [pack_I] of it
    gives the same four bytes back. *)
Theorem pack_unpack_I (hdr : list byte) :
  length hdr = 4%nat ->
  exists n,
    Struct.unpack_I hdr = Some n /\ 0 <= n < 2 ^ 32 /\ Struct.pack_I n = Some hdr.
Proof.
  intros Hlen.
  destruct hdr as [|b0 [|b1 [|b2 [|b3 [|]]]]]; try discriminate.
  eexists. split; [reflexivity|].
  pose proof (byte_to_Z_range b0) as H0. pose proof (byte_to_Z_range b1) as H1.
  pose proof (byte_to_Z_range b2) as H2. pose proof (byte_to_Z_range b3) as H3.
  set (n := Z.lor _ _).
  assert (Hn : 0 <= n < 2 ^ 32).
  { assert (Hnn : 0 <= n)
      by (subst n; repeat (apply Z.lor_nonneg; split);
          try apply Z.shiftl_nonneg; lia).
    split; [exact Hnn|].
    assert (Hmod : n mod 2 ^ 32 = n).
    { apply Z.bits_inj'. intros i Hi.
      destruct (Z.ltb_spec i 32).
      - by apply Z.mod_pow2_bits_low.
      - rewrite Z.mod_pow2_bits_high by lia. symmetry.
        subst n. rewrite testbit_octets by lia.
        repeat match goal with
               | |- context [?a <? ?c] => destruct (Z.ltb_spec a c); try lia
               end.
        apply testbit_byte_high; lia. }
    rewrite <- Hmod. apply Z.mod_pos_bound. lia. }
  split; [exact Hn|].
  unfold Struct.pack_I.
  destruct (Z.leb_spec 0 n), (Z.ltb_spec n (2 ^ 32)); try lia. simpl.
  subst n.
  rewrite (octet_of_octets _ _ _ _ 24 (Struct.byte_to_Z b0)) by (auto 10).
  rewrite (octet_of_octets _ _ _ _ 16 (Struct.byte_to_Z b1)) by (auto 10).
  rewrite (octet_of_octets _ _ _ _ 8 (Struct.byte_to_Z b2)) by (auto 10).
  rewrite <- (Z.shiftr_0_r (Z.lor _ _)).
  rewrite (octet_of_octets _ _ _ _ 0 (Struct.byte_to_Z b3)) by (auto 10).
  by rewrite !byte_of_to_Z.
Qed.

Lemma pack_unpack_I_witness :
  Struct.unpack_I [xff; xff; xff; xff] = Some (2 ^ 32 - 1) /\
  Struct.pack_I (2 ^ 32 - 1) = Some [xff; xff; xff; xff].
Proof.
  destruct (pack_unpack_I [xff; xff; xff; xff] eq_refl) as (n & Hun & _ & Hp).
  injection Hun as <-. split; [reflexivity|exact Hp].
Defined.

Lemma read_frame_header (hdr json_data rest : list byte) :
  length hdr = 4%nat ->
  Struct.unpack_I hdr = Some (Z.of_nat (length json_data)) ->
  Protocol.read_frame (hdr ++ json_data ++ rest) = (Some json_data, rest).
Proof.
  intros Hlen Hun. unfold Protocol.read_frame.
  replace 4 with (Z.of_nat (length hdr)) by lia.
  rewrite read_exact, Hlen. simpl negb. cbv iota.
  rewrite Hun, read_exact, Z.eqb_refl. reflexivity.
Qed.

(** X22: [read_message] takes from the stream exactly one frame: it gets
    a payload only from a stream that starts with four header bytes
    followed by as many payload bytes as the header says, and what it
    leaves is everything after those bytes, not one byte less. *)
Theorem read_frame_exact (stdin stdin' : Stream.stream) (json_data : list byte) :
  Protocol.read_frame stdin = (Some json_data, stdin') <->
  exists hdr,
    stdin = hdr ++ json_data ++ stdin' /\
    length hdr = 4%nat /\
    Struct.unpack_I hdr = Some (Z.of_nat (length json_data)).
Proof.
  split.
  - unfold Protocol.read_frame, Stream.read.
    destruct (Nat.eqb_spec (length (take (Z.to_nat 4) stdin)) 4) as [H4|];
      simpl; [|discriminate].
    destruct (Struct.unpack_I (take (Z.to_nat 4) stdin)) as [declared|] eqn:Hun;
      [|discriminate].
    destruct (Z.eqb_spec
                (Z.of_nat (length (take (Z.to_nat declared)
                                     (drop (Z.to_nat 4) stdin)))) declared)
      as [Hd|]; simpl; [|discriminate].
    intros [= <- <-]. exists (take (Z.to_nat 4) stdin).
    split; [by rewrite !take_drop|]. split; [exact H4|]. by rewrite Hd.
  - intros (hdr & -> & Hlen & Hun). by apply read_frame_header.
Qed.

(** ** More on the protocol loop *)

Section Turns.

Context {State : Type}.
Variables (C : Codec) (E : Env) (H : Dispatch.Handlers State).
Variable clock : State -> timestamp.

(** More turns than needed change nothing. *)
Lemma run_turns_enough turns turns' stdin stdout st r :
  Protocol.run_turns C E H clock turns stdin stdout st = Some r ->
  (turns <= turns')%nat ->
  Protocol.run_turns C E H clock turns' stdin stdout st = Some r.
Proof.
  revert turns' stdin stdout st.
  induction turns as [|turns IH]; intros turns' stdin stdout st; [discriminate|].
  intros Hr Hle. destruct turns' as [|turns']; [lia|]. simpl in *.
  destruct (Protocol.step C E H clock stdin stdout st) as [r'|[[s o] st']];
    [exact Hr|].
  apply IH; [exact Hr|lia].
Qed.

Lemma run_unroll stdin stdout st stdin' stdout' st' :
  Protocol.step C E H clock stdin stdout st = inr (stdin', stdout', st') ->
  Protocol.run C E H clock stdin stdout st = Protocol.run C E H clock stdin' stdout' st'.
Proof.
  intros Hs. pose proof (step_consumes _ _ _ _ _ _ _ _ _ _ Hs) as Hlen.
  unfold Protocol.run at 1. simpl. rewrite Hs.
  destruct (run_turns_total C E H clock (S (length stdin')) stdin' stdout' st')
    as [r Hr]; [lia|].
  unfold Protocol.run. rewrite Hr.
  apply (run_turns_enough _ _ _ _ _ _ Hr). lia.
Qed.

(** The response [run] builds for a request. *)
Lemma step_request (json_data hdr rest stdout : list byte) (st : State) members :
  Struct.pack_I (Z.of_nat (length json_data)) = Some hdr ->
  json_loads C json_data = Some (JObj members) ->
  Protocol.step C E H clock (hdr ++ json_data ++ rest) stdout st =
  let request_id := default JNull (Dict.get "id" members) in
  let command := default JNull (Dict.get "command" members) in
  let args := default (JObj []) (Dict.get "args" members) in
  let '(outcome, st') := Dispatch.process_command E H command args st in
  let response :=
    match outcome with
    | inr result =>
        JObj [("id", request_id); ("success", JBool true); ("result", result);
              ("timestamp", JFloat (clock st'))]
    | inl e =>
        JObj [("id", request_id); ("success", JBool false);
              ("error", JStr (str_exn e)); ("timestamp", JFloat (clock st'))]
    end in
  match Protocol.write_message C response stdout with
  | (true, stdout') => inr (rest, stdout', st')
  | (false, stdout') =>
      inl {| Protocol.run_exit := Protocol.WriteFailed;
             Protocol.run_stdin := rest;
             Protocol.run_stdout := stdout';
             Protocol.run_state := st' |}
  end.
Proof.
  intros Hp Hloads. unfold Protocol.step.
  rewrite (read_message_framed _ _ _ _ Hp), Hloads. simpl.
  by destruct (Dispatch.process_command _ _ _ _ _) as [[e|result] st'].
Qed.

(** X23: one request, one response, then the next read.  On a stream
    that starts with the frame of a JSON object, [run] dispatches the
    object's command with its arguments, appends to the output exactly
    one frame, that of an envelope carrying the request's id (or [null]
    where it has none), [success] and either the result or the text of
    the exception that left [process_command], and goes on with the
    rest of the stream in the state the handler left; where the
    response does not fit a frame, it stops without writing. *)
Theorem request_then_response (json_data hdr rest stdout : list byte) (st : State)
    (members : Dict.t json) :
  Struct.pack_I (Z.of_nat (length json_data)) = Some hdr ->
  json_loads C json_data = Some (JObj members) ->
  let request_id := default JNull (Dict.get "id" members) in
  let command := default JNull (Dict.get "command" members) in
  let args := default (JObj []) (Dict.get "args" members) in
  let '(outcome, st') := Dispatch.process_command E H command args st in
  let response :=
    match outcome with
    | inr result =>
        JObj [("id", request_id); ("success", JBool true); ("result", result);
              ("timestamp", JFloat (clock st'))]
    | inl e =>
        JObj [("id", request_id); ("success", JBool false);
              ("error", JStr (str_exn e)); ("timestamp", JFloat (clock st'))]
    end in
  match Struct.pack_I (Z.of_nat (length (json_dumps C response))) with
  | Some response_hdr =>
      Protocol.run C E H clock (hdr ++ json_data ++ rest) stdout st =
      Protocol.run C E H clock rest
        (stdout ++ response_hdr ++ json_dumps C response) st'
  | None =>
      Protocol.run C E H clock (hdr ++ json_data ++ rest) stdout st =
      Some {| Protocol.run_exit := Protocol.WriteFailed;
              Protocol.run_stdin := rest;
              Protocol.run_stdout := stdout;
              Protocol.run_state := st' |}
  end.
Proof.
  intros Hp Hloads request_id command args.
  pose proof (step_request json_data hdr rest stdout st members Hp Hloads) as Hs.
  cbn zeta in Hs. fold request_id command args in Hs.
  destruct (Dispatch.process_command E H command args st) as [outcome st'].
  cbn zeta.
  set (response := match outcome with inr _ => _ | inl _ => _ end) in *.
  unfold Protocol.write_message, Protocol.write_frame in Hs.
  destruct (Struct.pack_I (Z.of_nat (length (json_dumps C response))))
    as [response_hdr|].
  - apply run_unroll. exact Hs.
  - unfold Protocol.run. cbn [Protocol.run_turns]. by rewrite Hs.
Qed.

End Turns.

Lemma request_then_response_witness :
  Protocol.run Sample.codec Sample.world Sample.table (fun _ => 0)
    [x00; x00; x00; x02; x7b; x7d; x00; x00] [] 0%nat =
  Protocol.run Sample.codec Sample.world Sample.table (fun _ => 0)
    [x00; x00] [x00; x00; x00; x02; x7b; x7d] 0%nat.
Proof.
  exact (request_then_response Sample.codec Sample.world Sample.table (fun _ => 0)
           [x7b; x7d] [x00; x00; x00; x02] [x00; x00] [] 0%nat [] eq_refl eq_refl).
Defined.

Section Output.

Context {State : Type}.
Variables (C : Codec) (E : Env) (H : Dispatch.Handlers State).
Variable clock : State -> timestamp.

Lemma step_output stdin stdout st :
  match Protocol.step C E H clock stdin stdout st with
  | inl r => Protocol.run_stdout r = stdout
  | inr (_, stdout', _) =>
      exists m,
        envelope_written C m /\
        stdout' = stdout ++ snd (Protocol.write_message C m [])
  end.
Proof.
  unfold Protocol.step.
  destruct (Protocol.read_message C stdin) as [request s].
  destruct request; try reflexivity. simpl.
  destruct (Dispatch.process_command _ _ _ _ _) as [[e|result] st'].
  all: match goal with
       | |- context [Protocol.write_message C ?m ?o] =>
           unfold Protocol.write_message, Protocol.write_frame;
           destruct (Struct.pack_I (Z.of_nat (length (json_dumps C m))))
             as [hdr|] eqn:Hp; [|reflexivity];
           exists m; unfold envelope_written, Protocol.write_message,
                       Protocol.write_frame; rewrite Hp; simpl
       end.
  - repeat split; eauto.
  - repeat split; eauto.
Qed.

(** X24: what [run] adds to the output is a sequence of whole frames,
    one per response, each the frame of an envelope with an id, a
    timestamp, and either [success] true and a result or [success] false
    and an error; nothing already written is changed, and no partial
    frame is ever written. *)
Theorem run_writes_whole_frames (stdin : Stream.stream) (stdout : list byte)
    (st : State) (r : Protocol.Run) :
  Protocol.run C E H clock stdin stdout st = Some r ->
  exists responses : list json,
    Forall (envelope_written C) responses /\
    Protocol.run_stdout r =
    stdout ++ concat (map (fun m => snd (Protocol.write_message C m [])) responses).
Proof.
  unfold Protocol.run. generalize (S (length stdin)) as turns.
  intros turns. revert stdin stdout st.
  induction turns as [|turns IH]; intros stdin stdout st; [discriminate|].
  simpl. pose proof (step_output stdin stdout st) as Hs.
  destruct (Protocol.step C E H clock stdin stdout st) as [r'|[[s o] st']].
  - intros [= <-]. exists []. split; [constructor|]. simpl. by rewrite app_nil_r.
  - destruct Hs as (m & Hm & ->). intros Hr.
    destruct (IH _ _ _ Hr) as (responses & Hall & Hout).
    exists (m :: responses). split; [by constructor|].
    rewrite Hout. simpl. by rewrite <- app_assoc.
Qed.

End Output.

Lemma run_writes_whole_frames_witness :
  exists responses : list json,
    Forall (envelope_written Sample.codec) responses /\
    [x00; x00; x00; x02; x7b; x7d] =
    [] ++ concat (map (fun m => snd (Protocol.write_message Sample.codec m []))
                    responses).
Proof.
  apply (run_writes_whole_frames Sample.codec Sample.world Sample.table (fun _ => 0)
           [x00; x00; x00; x02; x7b; x7d] [] 0%nat
           {| Protocol.run_exit := Protocol.EndOfStream;
              Protocol.run_stdin := [];
              Protocol.run_stdout := [x00; x00; x00; x02; x7b; x7d];
              Protocol.run_state := 0%nat |}).
  reflexivity.
Defined.

(** X25: a command that is not a string.  [None], a number or a boolean
    is a key the table does not hold: the answer is the unknown-command
    error with the eight supported names, and no handler runs.  A list
    or a dictionary cannot be a key at all: [process_command] raises a
    [TypeError] instead of answering, and the state is untouched. *)
Theorem process_command_not_a_name {State : Type} (E : Env)
    (H : Dispatch.Handlers State) (command args : json) (st : State) :
  match command with
  | JStr _ => True
  | JArr _ =>
      Dispatch.process_command E H command args st =
      (inl (TypeError "unhashable type: 'list'"), st)
  | JObj _ =>
      Dispatch.process_command E H command args st =
      (inl (TypeError "unhashable type: 'dict'"), st)
  | _ =>
      Dispatch.process_command E H command args st =
      (inr (JObj [("status", JStr "error");
                  ("error", JStr ("Unknown command: " +:+ str_other E command));
                  ("supported_commands",
                   JArr [JStr "ping"; JStr "configure_lm"; JStr "create_program";
                         JStr "execute_program"; JStr "get_program";
                         JStr "list_programs"; JStr "delete_program";
                         JStr "clear_session"])]),
       st)
  end.
Proof. by destruct command. Qed.

Section Worker.

Context {State : Type}.
Variables (C : Codec) (E : Env) (H : Dispatch.Handlers State).
Variable clock : State -> timestamp.

(** X26: a request that parses but is not an object.  The payload
    [null] ends the loop as the end of the stream does; any other value
    that is not an object makes [run] end with an exception, before
    anything is dispatched or written for it, and [main] then exits
    with status 1. *)
Theorem non_object_request_stops_worker (json_data hdr rest stdout : list byte)
    (st : State) (request : json) :
  Struct.pack_I (Z.of_nat (length json_data)) = Some hdr ->
  json_loads C json_data = Some request ->
  (forall members, request <> JObj members) ->
  (request = JNull ->
   Protocol.run C E H clock (hdr ++ json_data ++ rest) stdout st =
     Some {| Protocol.run_exit := Protocol.EndOfStream;
             Protocol.run_stdin := rest;
             Protocol.run_stdout := stdout;
             Protocol.run_state := st |} /\
   Main.main C E H clock (Some "pool-worker") st (hdr ++ json_data ++ rest) =
     Some {| Main.exit_status := 0; Main.written := [] |}) /\
  (request <> JNull ->
   (exists e,
       Protocol.run C E H clock (hdr ++ json_data ++ rest) stdout st =
       Some {| Protocol.run_exit := Protocol.Raised e;
               Protocol.run_stdin := rest;
               Protocol.run_stdout := stdout;
               Protocol.run_state := st |}) /\
   Main.main C E H clock (Some "pool-worker") st (hdr ++ json_data ++ rest) =
     Some {| Main.exit_status := 1; Main.written := [] |}).
Proof.
  intros Hp Hloads Hobj.
  assert (Hstep : forall out,
             Protocol.step C E H clock (hdr ++ json_data ++ rest) out st =
             match request with
             | JNull =>
                 inl {| Protocol.run_exit := Protocol.EndOfStream;
                        Protocol.run_stdin := rest;
                        Protocol.run_stdout := out;
                        Protocol.run_state := st |}
             | _ =>
                 inl {| Protocol.run_exit :=
                          Protocol.Raised
                            (AttributeError "object has no attribute 'get'");
                        Protocol.run_stdin := rest;
                        Protocol.run_stdout := out;
                        Protocol.run_state := st |}
             end).
  { intros out. unfold Protocol.step.
    rewrite (read_message_framed _ _ _ _ Hp), Hloads. simpl.
    destruct request; try reflexivity. by destruct (Hobj members). }
  unfold Main.main, Protocol.run. cbn [Protocol.run_turns String.eqb default].
  rewrite !Hstep. simpl.
  split.
  - intros ->. by split.
  - intros Hnull. destruct request; try congruence; split; eauto.
Qed.

(** X27: [main] always comes to an end.  With a mode other than
    "pool-worker" it exits with status 1 and has neither read nor
    written; otherwise it runs the loop and exits with status 1 when an
    exception left [run] and with status 0 when the stream ended or a
    write failed, having written what [run] wrote. *)
Theorem main_exit_status (mode : option string) (fresh : State)
    (stdin : Stream.stream) :
  exists x,
    Main.main C E H clock mode fresh stdin = Some x /\
    if String.eqb (default "pool-worker" mode) "pool-worker" then
      exists r,
        Protocol.run C E H clock stdin [] fresh = Some r /\
        Main.written x = Protocol.run_stdout r /\
        Main.exit_status x =
          match Protocol.run_exit r with
          | Protocol.Raised _ => 1
          | _ => 0
          end
    else x = {| Main.exit_status := 1; Main.written := [] |}.
Proof.
  unfold Main.main.
  destruct (String.eqb (default "pool-worker" mode) "pool-worker"); [|eauto].
  destruct (run_turns_total C E H clock (S (length stdin)) stdin [] fresh)
    as [r Hr]; [lia|].
  unfold Protocol.run. rewrite Hr.
  destruct (Protocol.run_exit r) eqn:Hx; eexists; (split; [reflexivity|]);
    exists r; rewrite Hx; by repeat split.
Qed.

End Worker.

Lemma non_object_request_stops_worker_witness :
  Main.main Sample.codec Sample.world Sample.table (fun _ => 0)
    (Some "pool-worker") 0%nat [x00; x00; x00; x02; x5b; x5d; x00] =
  Some {| Main.exit_status := 1; Main.written := [] |}.
Proof.
  destruct (non_object_request_stops_worker Sample.codec Sample.world Sample.table
              (fun _ => 0) [x5b; x5d] [x00; x00; x00; x02] [x00] [] 0%nat
              (JArr []) eq_refl eq_refl ltac:(discriminate)) as [_ Hrest].
  destruct (Hrest ltac:(discriminate)) as [_ Hmain]. exact Hmain.
Defined.

Lemma capability_unavailable_witness :
  create_program Sample.offline_world new_manager "p1" Sample.question_answer
    None "predict" = (error_result "DSPy is not available", new_manager) /\
  handle_execute_program Sample.offline_world None Sample.bridge
    Sample.stateless_request =
  (error_result
     ("Execute program failed: DSPy not available - cannot recreate programs"
      +:+ nl +:+ "Traceback: " +:+ Sample.traceback),
   Sample.bridge).
Proof.
  destruct (capability_unavailable Sample.offline_world Sample.provider eq_refl)
    as (Hcreate & _ & Hexecute).
  split; [apply Hcreate|].
  by apply (Hexecute None Sample.bridge Sample.stateless_request Sample.snapshot).
Defined.

Example failed_create_keeps_registry :
  let created :=
    snd (create_program Sample.world new_manager "p1" Sample.question_answer
           None "predict") in
  create_program Sample.world created "p1" Sample.question_answer_reason None "chain" =
    (error_result "Unsupported program type: chain", created) /\
  create_program Sample.strict_world created "p2" Sample.question_answer None "predict" =
    (error_result "Failed to create program: invalid signature", created).
Proof. split; reflexivity. Qed.

Example missing_attribute_is_reported :
  _execute_with_program_info Sample.world
    {| ri_program := ri_program Sample.recreated;
       ri_signature_class := ri_signature_class Sample.recreated;
       ri_field_mapping :=
         [("question", "question"); ("answer", "answer"); ("reason", "reason")];
       ri_signature_def := Sample.question_answer_reason;
       ri_program_id := JStr "p1";
       ri_created_at := JNull;
       ri_execution_count := JInt 0;
       ri_last_executed := JNull |}
    Sample.inputs =
  JObj [("status", JStr "ok");
        ("outputs",
         JObj [("answer", JStr "4");
               ("reason", JStr "Field 'reason' not found in prediction.")]);
        ("program_id", JStr "p1");
        ("execution_time", JFloat 1700000000)].
Proof. reflexivity. Qed.
